(** * SafeSched: the availability-resolution engine of [app.py]

    A shallow embedding of the scheduling core of the Streamlit application
    (the rules of [parse_request], the calendar panel,
    [get_free_busy_for_participant], [compute_candidate_slots] and the
    "Finalize & Book" handler) together with the properties of the
    specification that concern it.

    Conventions of the embedding.

    - A [datetime] is the number of microseconds elapsed on the wall clock of
      the configured zone since 0001-01-01T00:00:00, the first instant Python
      can represent.  All timestamps of one session carry the same zone
      (Asia/Kolkata has a constant offset), so Python compares and adds them
      on the wall clock, which is integer comparison and addition here.
    - A [timedelta] is a number of microseconds.
    - Python's range checks are kept: [datetime + timedelta] raises
      [OverflowError] outside the years 1..9999, [timedelta(minutes=m)] raises
      it beyond 999999999 days, [datetime.replace(hour=h)] raises
      [ValueError] unless [0 <= h <= 23].
    - [st.session_state] is a record passed explicitly; the calendars are a
      finite map from participant name to the list of busy intervals, in
      insertion order.
    - The [while] loop of the slot finder is run with fuel; [OutOfFuel] is the
      third outcome besides returning and raising. *)

From Stdlib Require Import ZArith Lia Bool List Ascii String.
From Stdlib Require Import Sorted.
From stdpp Require Import base option list strings gmap fin_maps.

Local Open Scope string_scope.
Local Open Scope list_scope.
Local Open Scope Z_scope.

(** ** Outcomes of Python calls *)

Inductive exn : Type :=
  | ValueError
  | OverflowError.

Inductive outcome (A : Type) : Type :=
  | Returned (a : A)
  | Raised (e : exn)
  | OutOfFuel.

Arguments Returned {A} a.
Arguments Raised {A} e.
Arguments OutOfFuel {A}.

#[global] Instance outcome_ret : MRet outcome := fun _ a => Returned a.

#[global] Instance outcome_bind : MBind outcome := fun _ _ k m =>
  match m with
  | Returned a => k a
  | Raised e => Raised e
  | OutOfFuel => OutOfFuel
  end.

(** ** Time *)

Module Time.

Definition datetime := Z.
Definition timedelta := Z.

Definition MICROSECOND : Z := 1.
Definition SECOND : Z := 1000000.
Definition MINUTE : Z := 60000000.
Definition HOUR : Z := 3600000000.
Definition DAY : Z := 86400000000.

(** [date.max.toordinal()] is 3652059: the representable instants are
    the microseconds of the days 0 .. 3652058 after 0001-01-01. *)
Definition MAX_DAYS : Z := 3652059.
Definition MAX_DATETIME : Z := MAX_DAYS * DAY.

Definition in_range (t : Z) : bool := (0 <=? t) && (t <? MAX_DATETIME).

(** [timedelta(minutes=m)]: the normalised day count must stay within
    999999999 either way. *)
Definition MAX_DELTA_DAYS : Z := 999999999.

Definition timedelta_minutes (m : Z) : outcome timedelta :=
  let us := m * MINUTE in
  if (- MAX_DELTA_DAYS <=? us / DAY) && (us / DAY <=? MAX_DELTA_DAYS)
  then Returned us
  else Raised OverflowError.

(** [t + delta] on an aware datetime: wall-clock arithmetic, checked. *)
Definition add (t : datetime) (delta : timedelta) : outcome datetime :=
  if in_range (t + delta) then Returned (t + delta) else Raised OverflowError.

(** The [.hour] attribute. *)
Definition hour (t : datetime) : Z := (t / HOUR) mod 24.

(** The [.minute] attribute. *)
Definition minute (t : datetime) : Z := (t / MINUTE) mod 60.

(** [t.replace(hour=h, minute=0, second=0, microsecond=0)]. *)
Definition replace_hour (t : datetime) (h : Z) : outcome datetime :=
  if (0 <=? h) && (h <=? 23)
  then Returned ((t / DAY) * DAY + h * HOUR)
  else Raised ValueError.

(** The instant [h]:[m] of day number [d] (days counted from 0001-01-01). *)
Definition at_hm (d h m : Z) : datetime := d * DAY + h * HOUR + m * MINUTE.

End Time.

Import Time.

(** ** The session state *)

Definition interval : Type := datetime * datetime.

Record booking : Type := {
  booking_title : string;
  booking_slot : datetime;
  booking_participants : list string;
  booking_link : string;
  booking_created_at : datetime
}.

Record session_state : Type := {
  sim_calendars : gmap string (list interval);
  bookings : list booking
}.

(** The dictionary returned by [parse_request]. *)
Record request : Type := {
  participants : list string;
  duration_mins : Z;
  date_from : datetime;
  date_to : datetime;
  title : string
}.

(** ** Calendar agent *)

(** The [for s,e in busy] loop of [get_free_busy_for_participant]. *)
Fixpoint clip_intervals (busy : list interval) (window_start window_end : datetime)
  : list interval :=
  match busy with
  | [] => []
  | (s, e) :: rest =>
      if (e <? window_start) || (s >? window_end)
      then clip_intervals rest window_start window_end
      else (Z.max s window_start, Z.min e window_end)
             :: clip_intervals rest window_start window_end
  end.

Definition get_free_busy_for_participant (st : session_state) (name : string)
    (window_start window_end : datetime) : list interval :=
  let busy := default [] (sim_calendars st !! name) in
  clip_intervals busy window_start window_end.

(** Python truthiness of a list. *)
Definition truthy {A} (l : list A) : bool :=
  match l with [] => false | _ => true end.

(** The [for p in parsed['participants'] + ['You']] loop of the slot finder:
    the flag [conflict] after the loop. *)
Fixpoint conflict_loop (st : session_state) (ps : list string)
    (cur cur_end : datetime) : bool :=
  match ps with
  | [] => false
  | p :: rest =>
      if truthy (get_free_busy_for_participant st p cur cur_end)
      then true
      else conflict_loop st rest cur cur_end
  end.

Definition has_conflict (st : session_state) (parsed : request)
    (cur cur_end : datetime) : bool :=
  conflict_loop st (participants parsed ++ ["You"]) cur cur_end.

(** The test [cur.hour >= work_start and (cur + duration).hour <= work_end]. *)
Definition in_work_hours (work_start work_end : Z) (cur cur_end : datetime) : bool :=
  (work_start <=? hour cur) && (hour cur_end <=? work_end).

(** The [while cur + duration <= end] loop.  The list returned is the value
    of [candidates] when the loop exits, minus the elements appended before
    [cur] reached its present value. *)
Fixpoint slots_loop (fuel : nat) (st : session_state) (parsed : request)
    (duration : timedelta) (slot_step_mins work_start work_end : Z)
    (cur : datetime) : outcome (list datetime) :=
  match fuel with
  | O => OutOfFuel
  | S fuel' =>
      cur_end ← add cur duration;
      if cur_end <=? date_to parsed then
        let keep := in_work_hours work_start work_end cur cur_end
                    && negb (has_conflict st parsed cur cur_end) in
        step ← timedelta_minutes slot_step_mins;
        next ← add cur step;
        rest ← slots_loop fuel' st parsed duration slot_step_mins
                 work_start work_end next;
        mret (if keep then cur :: rest else rest)
      else mret []
  end.

Definition compute_candidate_slots (fuel : nat) (st : session_state)
    (parsed : request) (slot_step_mins work_start work_end : Z)
  : outcome (list datetime) :=
  duration ← timedelta_minutes (duration_mins parsed);
  cur ← replace_hour (date_from parsed) work_start;
  slots_loop fuel st parsed duration slot_step_mins work_start work_end cur.

(** The defaults of the signature:
    [slot_step_mins=30, work_start=9, work_end=18]. *)
Definition compute_candidate_slots_default (fuel : nat) (st : session_state)
    (parsed : request) : outcome (list datetime) :=
  compute_candidate_slots fuel st parsed 30 9 18.

(** ** The "Finalize & Book" handler *)

(** [sim_calendars.setdefault(p, []).append((slot, end))]. *)
Definition mark_busy (slot slot_end : datetime)
    (cals : gmap string (list interval)) (p : string)
  : gmap string (list interval) :=
  <[p := default [] (cals !! p) ++ [(slot, slot_end)]]> cals.

(** The body run when the button is pressed, for the selected [slot], the
    link made by [create_meeting_link] and the clock reading [now].  The
    booking is logged before the end of the slot is computed, so the state
    left behind by a raising run already holds it.  The [slot] and
    [created_at] fields are kept as timestamps instead of their ISO text. *)
Definition finalize_and_book (parsed : request) (slot : datetime)
    (link : string) (now : datetime) (st : session_state)
  : session_state * outcome unit :=
  let b := {| booking_title := title parsed;
              booking_slot := slot;
              booking_participants := participants parsed ++ ["You"];
              booking_link := link;
              booking_created_at := now |} in
  let logged := bookings st ++ [b] in
  match (d ← timedelta_minutes (duration_mins parsed); add slot d) with
  | Returned slot_end =>
      ({| sim_calendars :=
            foldl (mark_busy slot slot_end) (sim_calendars st)
                  (participants parsed ++ ["You"]);
          bookings := logged |},
       Returned ())
  | Raised e => ({| sim_calendars := sim_calendars st; bookings := logged |}, Raised e)
  | OutOfFuel => ({| sim_calendars := sim_calendars st; bookings := logged |}, OutOfFuel)
  end.

(** ** The participants rule of [parse_request]

    Text is ASCII: a [string] is read as a sequence of code points below 128,
    on which [str.lower], [str.title], [str.strip] and the class [\s] act as
    defined here. *)

Module Str.

Definition code (c : ascii) : N := N_of_ascii c.

Definition is_lower (c : ascii) : bool := ((97 <=? code c) && (code c <=? 122))%N.
Definition is_upper (c : ascii) : bool := ((65 <=? code c) && (code c <=? 90))%N.

(** Whitespace of [str.isspace], [str.strip] and [\s] below 128:
    TAB, LF, VT, FF, CR, FS, GS, RS, US and the space. *)
Definition is_space (c : ascii) : bool :=
  (((9 <=? code c) && (code c <=? 13)) || ((28 <=? code c) && (code c <=? 32)))%N.

Definition lower_char (c : ascii) : ascii :=
  if is_upper c then ascii_of_N (code c + 32) else c.
Definition upper_char (c : ascii) : ascii :=
  if is_lower c then ascii_of_N (code c - 32) else c.

(** [s.lower()] *)
Fixpoint lower (s : string) : string :=
  match s with
  | EmptyString => EmptyString
  | String c rest => String (lower_char c) (lower rest)
  end.

(** [s.title()]: a letter is upper-cased unless the character before it is
    a letter, in which case it is lower-cased. *)
Fixpoint title_from (previous_is_cased : bool) (s : string) : string :=
  match s with
  | EmptyString => EmptyString
  | String c rest =>
      String (if previous_is_cased then lower_char c else upper_char c)
             (title_from (is_lower c || is_upper c) rest)
  end.
Definition title (s : string) : string := title_from false s.

Fixpoint lstrip (s : string) : string :=
  match s with
  | EmptyString => EmptyString
  | String c rest => if is_space c then lstrip rest else s
  end.

Fixpoint rstrip (s : string) : string :=
  match s with
  | EmptyString => EmptyString
  | String c rest =>
      match rstrip rest with
      | EmptyString => if is_space c then EmptyString else String c EmptyString
      | r => String c r
      end
  end.

(** [s.strip()] *)
Definition strip (s : string) : string := rstrip (lstrip s).

(** [s.replace('and', ',')]: left to right, occurrences not overlapping. *)
Fixpoint replace_and (s : string) : string :=
  match s with
  | EmptyString => EmptyString
  | String "a" (String "n" (String "d" rest)) => String "," (replace_and rest)
  | String c rest => String c (replace_and rest)
  end.

(** [s.split(',')] *)
Fixpoint split_comma (s : string) : list string :=
  match s with
  | EmptyString => [EmptyString]
  | String c rest =>
      if Ascii.eqb c ","
      then EmptyString :: split_comma rest
      else match split_comma rest with
           | piece :: pieces => String c piece :: pieces
           | [] => [String c EmptyString]
           end
  end.

(** Python truthiness of a string. *)
Definition truthy (s : string) : bool :=
  match s with EmptyString => false | _ => true end.

(** The character class [[a-z,\s]]. *)
Definition in_class (c : ascii) : bool :=
  is_lower c || Ascii.eqb c "," || is_space c.

(** The longest prefix made of characters of the class: what the greedy
    [[a-z,\s]+] consumes, nothing following it in the pattern. *)
Fixpoint take_class (s : string) : string :=
  match s with
  | EmptyString => EmptyString
  | String c rest => if in_class c then String c (take_class rest) else EmptyString
  end.

(** [s] without the literal [lit] in front, if it starts with it. *)
Fixpoint strip_literal (lit s : string) : option string :=
  match lit, s with
  | EmptyString, _ => Some s
  | String a lit', String b s' =>
      if Ascii.eqb a b then strip_literal lit' s' else None
  | String _ _, EmptyString => None
  end.

(** Group 1 of the pattern [with ([a-z,\s]+)] matched at the start of [s]. *)
Definition match_with_here (s : string) : option string :=
  match strip_literal "with " s with
  | Some rest =>
      match take_class rest with
      | EmptyString => None
      | g => Some g
      end
  | None => None
  end.

(** [re.search(r'with ([a-z,\s]+)', s)]: group 1 of the leftmost match. *)
Fixpoint search_with (s : string) : option string :=
  match match_with_here s with
  | Some g => Some g
  | None =>
      match s with
      | EmptyString => None
      | String _ rest => search_with rest
      end
  end.

End Str.

(** The configuration constant used when no participant is found. *)
Definition FALLBACK_PARTICIPANTS : list string := ["Priya"; "Alex"].

(** [[p.strip().title() for p in ptext.split(',') if p.strip()]] *)
Fixpoint clean_parts (pieces : list string) : list string :=
  match pieces with
  | [] => []
  | p :: rest =>
      if Str.truthy (Str.strip p)
      then Str.title (Str.strip p) :: clean_parts rest
      else clean_parts rest
  end.

(** The value of the ['participants'] entry of the dictionary returned by
    [parse_request text]. *)
Definition parse_request_participants (text : string) : list string :=
  let text_lower := Str.lower text in
  let participants :=
    match Str.search_with text_lower with
    | Some ptext => clean_parts (Str.split_comma (Str.replace_and ptext))
    | None => []
    end in
  match participants with
  | [] => FALLBACK_PARTICIPANTS
  | _ => participants
  end.

(** ** The calendar panel *)

(** [[(s, e) for s, e in sim_calendars.get('You', []) if s.date() == d]]:
    the events listed under day [d], a day number. *)
Definition events_on (st : session_state) (d : Z) : list interval :=
  filter (fun ev : interval => fst ev / DAY = d)
         (default [] (sim_calendars st !! "You")).

(** The rows of the panel: the seven days [today + timedelta(days=i)], [i] in
    [range(0, 7)], each with its events.  The days are computed first, and
    computing a day past the last date Python represents raises
    [OverflowError]. *)
Definition agenda (st : session_state) (today : Z)
  : outcome (list (Z * list interval)) :=
  if (0 <=? today) && (today + 6 <? MAX_DAYS)
  then Returned (map (fun i => (today + i, events_on st (today + i)))
                     [0; 1; 2; 3; 4; 5; 6])
  else Raised OverflowError.

(** ** The duration, title and window rules of [parse_request]

    Text is ASCII here too, [\d] being the digits 0 to 9.  [int] is taken on
    runs of digits of any length: the limit recent Python versions put on
    the number of digits converted (4300 by default, [ValueError] beyond) is
    left out, and the properties of the duration are stated for texts within
    that limit. *)

Module Scan.

Definition is_digit (c : ascii) : bool :=
  ((48 <=? Str.code c) && (Str.code c <=? 57))%N.

(** The longest prefix of characters satisfying [f], and what follows it. *)
Fixpoint take_while (f : ascii -> bool) (s : string) : string :=
  match s with
  | EmptyString => EmptyString
  | String c rest => if f c then String c (take_while f rest) else EmptyString
  end.

Fixpoint drop_while (f : ascii -> bool) (s : string) : string :=
  match s with
  | EmptyString => EmptyString
  | String c rest => if f c then drop_while f rest else s
  end.

(** [s.startswith(lit)] *)
Definition starts_with (lit s : string) : bool :=
  match Str.strip_literal lit s with
  | Some _ => true
  | None => false
  end.

(** [lit in s] *)
Fixpoint contains (lit s : string) : bool :=
  starts_with lit s
  || match s with
     | EmptyString => false
     | String _ rest => contains lit rest
     end.

(** [int(ds)] for a run of digits [ds]. *)
Fixpoint int_from (acc : Z) (ds : string) : Z :=
  match ds with
  | EmptyString => acc
  | String c rest => int_from (10 * acc + Z.of_N (Str.code c - 48)) rest
  end.

Definition int (ds : string) : Z := int_from 0 ds.

(** Group 1 of the pattern [(\d+)\s*(u1|u2|...)] matched at the start of
    [s].  Giving back digits or whitespace cannot help a unit to match, as
    no unit starts with a digit or a whitespace character, so the greedy
    runs decide. *)
Definition match_amount_here (units : list string) (s : string) : option string :=
  match take_while is_digit s with
  | EmptyString => None
  | ds =>
      if existsb (fun u => starts_with u (Str.lstrip (drop_while is_digit s))) units
      then Some ds
      else None
  end.

(** [re.search] with that pattern: group 1 of the leftmost match. *)
Fixpoint search_amount (units : list string) (s : string) : option string :=
  match match_amount_here units s with
  | Some g => Some g
  | None =>
      match s with
      | EmptyString => None
      | String _ rest => search_amount units rest
      end
  end.

(** The character class [[a-z\s]]. *)
Definition in_topic_class (c : ascii) : bool := Str.is_lower c || Str.is_space c.

(** Group 1 of [kw ([a-z\s]+)] matched at the start of [s]. *)
Definition match_keyword_here (kw s : string) : option string :=
  match Str.strip_literal kw s with
  | Some after_kw =>
      match Str.strip_literal " " after_kw with
      | Some rest =>
          match take_while in_topic_class rest with
          | EmptyString => None
          | g => Some g
          end
      | None => None
      end
  | None => None
  end.

(** Group 1 of [(?:for|about|to) ([a-z\s]+)] matched at the start of [s]. *)
Definition match_topic_here (s : string) : option string :=
  match match_keyword_here "for" s with
  | Some g => Some g
  | None =>
      match match_keyword_here "about" s with
      | Some g => Some g
      | None => match_keyword_here "to" s
      end
  end.

Fixpoint search_topic (s : string) : option string :=
  match match_topic_here s with
  | Some g => Some g
  | None =>
      match s with
      | EmptyString => None
      | String _ rest => search_topic rest
      end
  end.

End Scan.

(** The value of the ['duration_mins'] entry. *)
Definition parse_request_duration (text : string) : Z :=
  let text_lower := Str.lower text in
  match Scan.search_amount ["min"; "mins"; "minutes"] text_lower with
  | Some ds => Scan.int ds
  | None =>
      match Scan.search_amount ["hr"; "hour"; "hours"] text_lower with
      | Some ds => Scan.int ds * 60
      | None => 30
      end
  end.

(** The value of the ['title'] entry. *)
Definition parse_request_title (text : string) : string :=
  match Scan.search_topic (Str.lower text) with
  | Some g => Str.title (Str.strip g)
  | None => "Meeting"
  end.

(** [t.weekday()], Monday being 0; 0001-01-01 is a Monday. *)
Definition weekday (t : datetime) : Z := (t / DAY) mod 7.

(** The branch for "tomorrow". *)
Definition window_tomorrow (now : datetime) : outcome (datetime * datetime) :=
  t ← add now (1 * DAY);
  date_from ← replace_hour t 9;
  date_to ← add date_from (1 * DAY);
  mret (date_from, date_to).

(** The branch for "next week". *)
Definition window_next_week (now : datetime) : outcome (datetime * datetime) :=
  let days_ahead := 7 - weekday now in
  t ← add now (days_ahead * DAY);
  next_monday ← replace_hour t 9;
  date_to ← add next_monday (7 * DAY);
  mret (next_monday, date_to).

(** [date_from = now; date_to = now + timedelta(days=7)] *)
Definition window_week_from_now (now : datetime) : outcome (datetime * datetime) :=
  date_to ← add now (7 * DAY);
  mret (now, date_to).

(** The last branch.  [fuzzy] is what [dateparser.parse(text, fuzzy=True)]
    gives: a timestamp, or nothing when it raises.  Whatever is raised
    inside the [try] leads to the window of a week from now.  (The
    timestamp of [dateutil] carries no zone unless the text names one; the
    model does not record that.) *)
Definition window_fuzzy (fuzzy : option datetime) (now : datetime)
  : outcome (datetime * datetime) :=
  match fuzzy with
  | Some parsed =>
      match (date_from ← replace_hour parsed 9;
             date_to ← add date_from (1 * DAY);
             mret (date_from, date_to)) with
      | Returned w => Returned w
      | _ => window_week_from_now now
      end
  | None => window_week_from_now now
  end.

(** The values of the ['date_from'] and ['date_to'] entries, for the clock
    reading [now]. *)
Definition parse_request_window (text : string) (now : datetime)
    (fuzzy : option datetime) : outcome (datetime * datetime) :=
  let text_lower := Str.lower text in
  if Scan.contains "tomorrow" text_lower then window_tomorrow now
  else if Scan.contains "next week" text_lower then window_next_week now
  else window_fuzzy fuzzy now.

(** [parse_request(text)] run at the instant [now]. *)
Definition parse_request (text : string) (now : datetime)
    (fuzzy : option datetime) : outcome request :=
  w ← parse_request_window text now fuzzy;
  mret {| participants := parse_request_participants text;
          duration_mins := parse_request_duration text;
          date_from := fst w;
          date_to := snd w;
          title := parse_request_title text |}.

(** ** Shapes of names *)

Fixpoint all_chars (f : ascii -> bool) (s : string) : bool :=
  match s with
  | EmptyString => true
  | String c rest => f c && all_chars f rest
  end.





(** Case analysis on the 256 characters. *)
Ltac by_cases c :=
  destruct c as [[] [] [] [] [] [] [] []]; try reflexivity; try discriminate.

(** ** Scenarios *)

(** 2025-01-06, counted in days from 0001-01-01. *)
Definition D0 : Z := 739256.

(** Scenario 1: "You" busy from 09:00 to 10:00 on day [d]. *)
Definition scenario1_store (d : Z) : session_state :=
  {| sim_calendars := {[ "You" := [(at_hm d 9 0, at_hm d 10 0)] ]};
     bookings := [] |}.

Definition scenario1_request (d : Z) : request :=
  {| participants := []; duration_mins := 30;
     date_from := at_hm d 9 0; date_to := at_hm d 18 0; title := "Meeting" |}.

Definition empty_store : session_state :=
  {| sim_calendars := ∅; bookings := [] |}.

(** The number of times the body of the [while] loop runs from [cur] on,
    for a positive step. *)
Definition iterations (date_to : datetime) (duration step : timedelta)
    (cur : datetime) : nat :=
  Z.to_nat ((date_to - (cur + duration)) / step + 1).

(** Fuel that lets [compute_candidate_slots] finish when the step is
    positive. *)
Definition enough_fuel (parsed : request) (slot_step_mins work_start : Z) : nat :=
  S (iterations (date_to parsed) (duration_mins parsed * MINUTE)
       (slot_step_mins * MINUTE)
       (date_from parsed / DAY * DAY + work_start * HOUR)).

(** [parsed] with another participants list. *)
Definition with_participants (parsed : request) (ps : list string) : request :=
  {| participants := ps; duration_mins := duration_mins parsed;
     date_from := date_from parsed; date_to := date_to parsed;
     title := title parsed |}.

(** [store.addBusy]: one more interval at the end of [p]'s calendar. *)
Definition add_busy (st : session_state) (p : string) (s e : datetime)
  : session_state :=
  {| sim_calendars := mark_busy s e (sim_calendars st) p;
     bookings := bookings st |}.

(** Python's range checks all pass on the way of the slot finder: both
    durations fit a [timedelta], and every sum the loop forms is a
    representable instant. *)
Definition arithmetic_in_range (parsed : request) (slot_step_mins work_start : Z)
  : bool :=
  let cur := date_from parsed / DAY * DAY + work_start * HOUR in
  let d := duration_mins parsed * MINUTE in
  let s := slot_step_mins * MINUTE in
  (- MAX_DELTA_DAYS * 1440 <=? duration_mins parsed)
  && (duration_mins parsed <? (MAX_DELTA_DAYS + 1) * 1440)
  && (slot_step_mins <? (MAX_DELTA_DAYS + 1) * 1440)
  && (0 <=? date_from parsed)
  && (0 <=? cur + d) && (cur + d <? MAX_DATETIME)
  && (date_to parsed + s <? MAX_DATETIME)
  && (date_to parsed - d + s <? MAX_DATETIME).

(** Requests the slot finder is not meant to be given. *)
Definition zero_duration_request : request :=
  {| participants := []; duration_mins := 0;
     date_from := at_hm D0 9 0; date_to := at_hm D0 10 0; title := "Meeting" |}.

Definition reversed_window_request : request :=
  {| participants := []; duration_mins := 30;
     date_from := at_hm D0 10 0; date_to := at_hm D0 9 30; title := "Meeting" |}.

(** A window that opens at 14:00. *)
Definition afternoon_request : request :=
  {| participants := []; duration_mins := 30;
     date_from := at_hm D0 14 0; date_to := at_hm D0 18 0; title := "Meeting" |}.

(** A 31-minute meeting somewhere within one day. *)
Definition odd_length_request : request :=
  {| participants := []; duration_mins := 31;
     date_from := at_hm D0 9 0; date_to := at_hm (D0 + 1) 9 0; title := "Meeting" |}.

(** [st'] answers every busy-within query non-emptily where [st] does. *)
Definition grows (st st' : session_state) : Prop :=
  forall p a b,
    truthy (get_free_busy_for_participant st p a b) = true ->
    truthy (get_free_busy_for_participant st' p a b) = true.

(** * Properties *)

(** Linear arithmetic on instants written with the clock constants. *)
Ltac clock :=
  unfold at_hm, MAX_DATETIME, MAX_DAYS, DAY, HOUR, MINUTE in *; lia.


(** ** Clock arithmetic *)

Section Clock.

Lemma hour_at_hm d h m us :
  0 <= h < 24 -> 0 <= m < 60 -> 0 <= us < MINUTE ->
  hour (at_hm d h m + us) = h.
Proof.
  intros Hh Hm Hus. unfold hour, at_hm, DAY, HOUR, MINUTE in *.
  replace (d * 86400000000 + h * 3600000000 + m * 60000000 + us)
    with ((m * 60000000 + us) + (d * 24 + h) * 3600000000) by ring.
  rewrite Z.div_add by lia.
  rewrite (Z.div_small (m * 60000000 + us)) by lia.
  rewrite Z.add_0_l.
  replace (d * 24 + h) with (h + d * 24) by ring.
  rewrite Z_mod_plus_full. apply Z.mod_small; lia.
Qed.

Lemma hour_range t : 0 <= hour t < 24.
Proof. unfold hour. apply Z.mod_pos_bound. lia. Qed.

Lemma add_Returned t delta r :
  add t delta = Returned r <-> r = t + delta /\ 0 <= t + delta < MAX_DATETIME.
Proof.
  unfold add, in_range.
  destruct (Z.leb_spec 0 (t + delta)), (Z.ltb_spec (t + delta) MAX_DATETIME);
    simpl; split; intros H'; try discriminate; try (destruct H'; lia).
  - inversion H'. lia.
  - destruct H' as [-> _]. reflexivity.
Qed.

Lemma add_in_range t delta :
  0 <= t + delta < MAX_DATETIME -> add t delta = Returned (t + delta).
Proof. intros H. apply add_Returned. lia. Qed.

Lemma timedelta_minutes_Returned m us :
  timedelta_minutes m = Returned us -> us = m * MINUTE.
Proof.
  unfold timedelta_minutes. case (_ && _); intros H; inversion H; reflexivity.
Qed.

Lemma timedelta_minutes_in_range m :
  - MAX_DELTA_DAYS * 1440 <= m < (MAX_DELTA_DAYS + 1) * 1440 ->
  timedelta_minutes m = Returned (m * MINUTE).
Proof.
  intros H. unfold timedelta_minutes.
  assert (Hd : - MAX_DELTA_DAYS <= m * MINUTE / DAY <= MAX_DELTA_DAYS).
  { unfold MAX_DELTA_DAYS, MINUTE, DAY in *. split.
    - apply Z.div_le_lower_bound; lia.
    - apply Z.lt_succ_r. apply Z.div_lt_upper_bound; lia. }
  replace ((- MAX_DELTA_DAYS <=? m * MINUTE / DAY)
           && (m * MINUTE / DAY <=? MAX_DELTA_DAYS)) with true; [reflexivity |].
  symmetry. apply andb_true_intro. split; apply Z.leb_le; lia.
Qed.

Lemma replace_hour_Returned t h r :
  replace_hour t h = Returned r <-> r = t / DAY * DAY + h * HOUR /\ 0 <= h <= 23.
Proof.
  unfold replace_hour.
  destruct (Z.leb_spec 0 h), (Z.leb_spec h 23); simpl; split; intros H';
    try discriminate; try (destruct H'; lia).
  - inversion H'. lia.
  - destruct H' as [-> _]. reflexivity.
Qed.

Lemma hour_between d h t :
  0 <= h < 24 ->
  d * DAY + h * HOUR <= t < d * DAY + (h + 1) * HOUR ->
  hour t = h.
Proof.
  intros Hh Ht. unfold hour, DAY, HOUR in *.
  assert (E : t / 3600000000 = h + d * 24).
  { symmetry. apply Z.div_unique with (t - (h + d * 24) * 3600000000); lia. }
  rewrite E, Z_mod_plus_full. apply Z.mod_small; lia.
Qed.

Lemma day_at_hm d h m :
  0 <= h < 24 -> 0 <= m < 60 -> at_hm d h m / DAY = d.
Proof.
  intros Hh Hm. unfold at_hm, DAY, HOUR, MINUTE.
  symmetry. apply Z.div_unique with (h * 3600000000 + m * 60000000); lia.
Qed.

End Clock.

(** ** The slot finder's loop *)

Section SlotFinder.

Variables (st : session_state) (parsed : request) (duration : timedelta).
Variables (slot_step_mins work_start work_end : Z).

Local Abbreviation loop fuel cur :=
  (slots_loop fuel st parsed duration slot_step_mins work_start work_end cur).

(** What a returning run of the loop has done in its first round. *)
Lemma slots_loop_inv fuel cur l :
  loop (S fuel) cur = Returned l ->
  0 <= cur + duration < MAX_DATETIME /\
  ((date_to parsed < cur + duration /\ l = []) \/
   (cur + duration <= date_to parsed /\
    exists rest,
      timedelta_minutes slot_step_mins = Returned (slot_step_mins * MINUTE) /\
      0 <= cur + slot_step_mins * MINUTE < MAX_DATETIME /\
      loop fuel (cur + slot_step_mins * MINUTE) = Returned rest /\
      l = if in_work_hours work_start work_end cur (cur + duration)
             && negb (has_conflict st parsed cur (cur + duration))
          then cur :: rest else rest)).
Proof.
  simpl. unfold mbind, outcome_bind, mret, outcome_ret.
  intros Hl.
  destruct (add cur duration) as [ce | |] eqn:Ea; try discriminate.
  apply add_Returned in Ea as [-> Hce]. split; [exact Hce |].
  destruct (Z.leb_spec (cur + duration) (date_to parsed)) as [Hle | Hgt].
  - right. split; [exact Hle |].
    destruct (timedelta_minutes slot_step_mins) as [sus | |] eqn:Et;
      try discriminate.
    pose proof (timedelta_minutes_Returned _ _ Et) as ->.
    destruct (add cur (slot_step_mins * MINUTE)) as [next | |] eqn:En;
      try discriminate.
    apply add_Returned in En as [-> Hnext].
    destruct (slots_loop fuel st parsed duration slot_step_mins work_start
                work_end (cur + slot_step_mins * MINUTE)) as [rest | |] eqn:Er;
      try discriminate.
    inversion Hl. exists rest. auto.
  - left. inversion Hl. auto.
Qed.

(** One round of the loop when nothing overflows and the slot fits. *)
Lemma slots_loop_round fuel cur :
  0 <= cur + duration < MAX_DATETIME ->
  cur + duration <= date_to parsed ->
  timedelta_minutes slot_step_mins = Returned (slot_step_mins * MINUTE) ->
  0 <= cur + slot_step_mins * MINUTE < MAX_DATETIME ->
  loop (S fuel) cur =
    rest ← loop fuel (cur + slot_step_mins * MINUTE);
    mret (if in_work_hours work_start work_end cur (cur + duration)
             && negb (has_conflict st parsed cur (cur + duration))
          then cur :: rest else rest).
Proof.
  intros Hce Hle Et Hnext. simpl.
  rewrite (add_in_range _ _ Hce). simpl.
  destruct (Z.leb_spec (cur + duration) (date_to parsed)); [| lia].
  rewrite Et. simpl. rewrite (add_in_range _ _ Hnext). reflexivity.
Qed.

(** The round that leaves the loop. *)
Lemma slots_loop_exit fuel cur :
  0 <= cur + duration < MAX_DATETIME ->
  date_to parsed < cur + duration ->
  loop (S fuel) cur = Returned [].
Proof.
  intros Hce Hgt. simpl.
  rewrite (add_in_range _ _ Hce). simpl.
  destruct (Z.leb_spec (cur + duration) (date_to parsed)); [lia | reflexivity].
Qed.

(** Every element of the returned list passed the three tests of the
    loop. *)
Lemma slots_loop_sound fuel : forall cur l,
  loop fuel cur = Returned l ->
  forall c, In c l ->
    c + duration <= date_to parsed /\
    in_work_hours work_start work_end c (c + duration) = true /\
    has_conflict st parsed c (c + duration) = false.
Proof.
  induction fuel as [| fuel IH]; intros cur l Hl c Hc; [discriminate |].
  apply slots_loop_inv in Hl as [_ [[_ ->] | [Hle (rest & _ & _ & Hrest & ->)]]].
  - destruct Hc.
  - destruct (in_work_hours work_start work_end cur (cur + duration)) eqn:Ew;
      [destruct (has_conflict st parsed cur (cur + duration)) eqn:Ec |];
      simpl in Hc.
    + exact (IH _ _ Hrest c Hc).
    + destruct Hc as [<- | Hc]; [auto | exact (IH _ _ Hrest c Hc)].
    + exact (IH _ _ Hrest c Hc).
Qed.

(** More fuel does not change an outcome already reached. *)
Lemma slots_loop_fuel_mono fuel : forall fuel' cur,
  (fuel <= fuel')%nat ->
  loop fuel cur <> OutOfFuel ->
  loop fuel' cur = loop fuel cur.
Proof.
  induction fuel as [| fuel IH]; intros fuel' cur Hf Hne; [now destruct Hne |].
  destruct fuel' as [| fuel']; [lia |].
  simpl in *.
  destruct (add cur duration) as [ce | |]; simpl in *; try reflexivity.
  destruct (ce <=? date_to parsed); [| reflexivity].
  destruct (timedelta_minutes slot_step_mins) as [sus | |]; simpl in *;
    try reflexivity.
  destruct (add cur sus) as [next | |]; simpl in *; try reflexivity.
  rewrite (IH fuel' next); [reflexivity | lia |].
  intros E. apply Hne. unfold mbind, outcome_bind. now rewrite E.
Qed.

(** With a positive step and no overflow on the way, the loop returns once
    the fuel exceeds the number of rounds. *)
Lemma slots_loop_returns fuel :
  0 < slot_step_mins ->
  timedelta_minutes slot_step_mins = Returned (slot_step_mins * MINUTE) ->
  forall cur,
  0 <= cur -> 0 <= cur + duration < MAX_DATETIME ->
  date_to parsed + slot_step_mins * MINUTE < MAX_DATETIME ->
  date_to parsed - duration + slot_step_mins * MINUTE < MAX_DATETIME ->
  (iterations (date_to parsed) duration (slot_step_mins * MINUTE)%Z cur < fuel)%nat ->
  exists l, loop fuel cur = Returned l.
Proof.
  intros Hstep Et.
  assert (Hs : 0 < slot_step_mins * MINUTE) by (unfold MINUTE; lia).
  induction fuel as [| fuel IH]; intros cur Hcur Hce Hmax1 Hmax2 Hit; [lia |].
  destruct (Z_le_gt_dec (cur + duration) (date_to parsed)) as [Hle | Hgt].
  - assert (Hn : 0 <= cur + slot_step_mins * MINUTE < MAX_DATETIME) by lia.
    rewrite (slots_loop_round _ _ Hce Hle Et Hn).
    destruct (IH (cur + slot_step_mins * MINUTE)) as [rest Hrest];
      try lia.
    + unfold iterations in *.
      replace (date_to parsed - (cur + slot_step_mins * MINUTE + duration))
        with (date_to parsed - (cur + duration)
              + (-1) * (slot_step_mins * MINUTE)) by ring.
      rewrite Z.div_add by lia.
      assert (0 <= (date_to parsed - (cur + duration))
                   / (slot_step_mins * MINUTE))
        by (apply Z.div_pos; lia).
      lia.
    + rewrite Hrest. simpl. eauto.
  - exists []. apply slots_loop_exit; lia.
Qed.

End SlotFinder.

(** ** The slot finder *)

Lemma compute_candidate_slots_inv fuel st parsed slot_step_mins work_start work_end l :
  compute_candidate_slots fuel st parsed slot_step_mins work_start work_end
    = Returned l ->
  0 <= work_start <= 23 /\
  slots_loop fuel st parsed (duration_mins parsed * MINUTE) slot_step_mins
    work_start work_end (date_from parsed / DAY * DAY + work_start * HOUR)
    = Returned l.
Proof.
  unfold compute_candidate_slots. intros H.
  destruct (timedelta_minutes (duration_mins parsed)) as [d | |] eqn:Ed;
    try discriminate.
  apply timedelta_minutes_Returned in Ed as ->. simpl in H.
  destruct (replace_hour (date_from parsed) work_start) as [cur | |] eqn:Ec;
    try discriminate.
  apply replace_hour_Returned in Ec as [-> Hw]. auto.
Qed.

Lemma arithmetic_in_range_spec parsed slot_step_mins work_start :
  arithmetic_in_range parsed slot_step_mins work_start = true ->
  let cur := date_from parsed / DAY * DAY + work_start * HOUR in
  let d := duration_mins parsed * MINUTE in
  let s := slot_step_mins * MINUTE in
  (- MAX_DELTA_DAYS * 1440 <= duration_mins parsed < (MAX_DELTA_DAYS + 1) * 1440) /\
  slot_step_mins < (MAX_DELTA_DAYS + 1) * 1440 /\
  0 <= date_from parsed /\
  0 <= cur + d < MAX_DATETIME /\
  date_to parsed + s < MAX_DATETIME /\
  date_to parsed - d + s < MAX_DATETIME.
Proof.
  unfold arithmetic_in_range. intros H.
  repeat (apply andb_prop in H as [H ?]).
  repeat match goal with
         | H : (_ <=? _) = true |- _ => apply Z.leb_le in H
         | H : (_ <? _) = true |- _ => apply Z.ltb_lt in H
         end.
  cbv zeta. lia.
Qed.

(** With a positive step, a legal hour and arithmetic that stays in range
    the slot finder returns, whatever the request. *)
Lemma compute_candidate_slots_returns fuel st parsed slot_step_mins work_start work_end :
  0 < slot_step_mins ->
  0 <= work_start <= 23 ->
  arithmetic_in_range parsed slot_step_mins work_start = true ->
  (enough_fuel parsed slot_step_mins work_start <= fuel)%nat ->
  exists l,
    compute_candidate_slots fuel st parsed slot_step_mins work_start work_end
      = Returned l.
Proof.
  intros Hstep Hw Hr Hf.
  apply arithmetic_in_range_spec in Hr as (Hd & Hs & Hfrom & Hcur & Hm1 & Hm2).
  unfold compute_candidate_slots.
  rewrite (timedelta_minutes_in_range _ Hd). simpl.
  assert (Ec : replace_hour (date_from parsed) work_start
               = Returned (date_from parsed / DAY * DAY + work_start * HOUR))
    by (apply replace_hour_Returned; auto).
  rewrite Ec. simpl.
  apply slots_loop_returns; try assumption.
  - apply timedelta_minutes_in_range. unfold MAX_DELTA_DAYS in *. lia.
  - assert (0 <= date_from parsed / DAY) by (apply Z.div_pos; unfold DAY; lia).
    unfold DAY, HOUR in *. lia.
Qed.

(** C3 (window containment): every candidate start the slot finder returns
    has an hour component of at least [work_start], ends at an instant whose
    hour component is at most [work_end], and ends no later than the end of
    the search window; this for every request, store, step and working
    hours. *)
Theorem window_containment fuel st parsed slot_step_mins work_start work_end l c :
  compute_candidate_slots fuel st parsed slot_step_mins work_start work_end
    = Returned l ->
  In c l ->
  work_start <= hour c /\
  hour (c + duration_mins parsed * MINUTE) <= work_end /\
  c + duration_mins parsed * MINUTE <= date_to parsed.
Proof.
  intros Hl Hc.
  apply compute_candidate_slots_inv in Hl as [_ Hl].
  destruct (slots_loop_sound _ _ _ _ _ _ _ _ _ Hl c Hc) as (Hend & Hw & _).
  unfold in_work_hours in Hw. apply andb_prop in Hw as [Hs He].
  apply Z.leb_le in Hs, He. auto.
Qed.

Lemma window_containment_witness :
  9 <= hour (at_hm D0 10 30) /\
  hour (at_hm D0 10 30 + 30 * MINUTE) <= 18 /\
  at_hm D0 10 30 + 30 * MINUTE <= at_hm D0 18 0.
Proof.
  refine (window_containment 19 (scenario1_store D0) (scenario1_request D0)
            30 9 18 _ (at_hm D0 10 30) _ _).
  - vm_compute. reflexivity.
  - vm_compute. auto.
Defined.

(** C7, as stated, fails: with a zero duration, and with a window whose end
    precedes its start, the slot finder raises nothing and returns
    candidates. *)
Lemma slot_finder_accepts_invalid_requests :
  (duration_mins zero_duration_request <= 0 /\
   compute_candidate_slots_default 4 empty_store zero_duration_request
     = Returned [at_hm D0 9 0; at_hm D0 9 30; at_hm D0 10 0]) /\
  (date_to reversed_window_request <= date_from reversed_window_request /\
   compute_candidate_slots_default 2 empty_store reversed_window_request
     = Returned [at_hm D0 9 0]).
Proof.
  split; (split; [vm_compute; discriminate | vm_compute; reflexivity]).
Qed.

(** C7 (amended): the slot finder validates nothing.  Called with a duration
    that is zero or negative, or with a window whose end is not after its
    start, it runs the ordinary scan and returns a list of candidates,
    given a positive step, a working-start hour between 0 and 23 and
    datetime arithmetic that stays in Python's range. *)
Theorem slot_finder_never_rejects fuel st parsed slot_step_mins work_start work_end :
  duration_mins parsed <= 0 \/ date_to parsed <= date_from parsed ->
  0 < slot_step_mins ->
  0 <= work_start <= 23 ->
  arithmetic_in_range parsed slot_step_mins work_start = true ->
  (enough_fuel parsed slot_step_mins work_start <= fuel)%nat ->
  exists l,
    compute_candidate_slots fuel st parsed slot_step_mins work_start work_end
      = Returned l.
Proof.
  intros _. apply compute_candidate_slots_returns.
Qed.

Lemma slot_finder_never_rejects_witness :
  exists l,
    compute_candidate_slots 4 empty_store zero_duration_request 30 9 18
      = Returned l.
Proof.
  apply (slot_finder_never_rejects 4 empty_store zero_duration_request 30 9 18).
  - left. vm_compute. discriminate.
  - lia.
  - lia.
  - vm_compute. reflexivity.
  - vm_compute. apply le_n.
Defined.

(** C10: there is a request whose window opens later in the day than the
    working-start hour and for which the slot finder returns a candidate
    strictly earlier than the window start.  With the window opening at
    14:00 the scan still starts at 09:00 of that day, and 09:00 is
    returned. *)
Theorem candidate_before_window_start :
  exists (parsed : request) (fuel : nat) (l : list datetime) (c : datetime),
    9 < hour (date_from parsed) /\
    replace_hour (date_from parsed) 9 = Returned c /\
    compute_candidate_slots_default fuel empty_store parsed = Returned l /\
    head l = Some c /\
    c < date_from parsed.
Proof.
  exists afternoon_request, 19%nat.
  eexists. exists (at_hm D0 9 0).
  split; [vm_compute; reflexivity |].
  split; [vm_compute; reflexivity |].
  split; [vm_compute; reflexivity |].
  split; vm_compute; reflexivity.
Qed.

(** ** The working-hours test *)

(** C4, as stated, fails: a 31-minute slot from 17:30 ends at 18:01, one
    minute past [work_end = 18], and is classified valid and returned. *)
Lemma slot_ending_one_past_work_end_valid :
  hour (at_hm D0 17 30 + 31 * MINUTE) = 18 /\
  minute (at_hm D0 17 30 + 31 * MINUTE) = 1 /\
  in_work_hours 9 18 (at_hm D0 17 30) (at_hm D0 17 30 + 31 * MINUTE) = true /\
  exists l,
    compute_candidate_slots_default 48 empty_store odd_length_request
      = Returned l /\
    In (at_hm D0 17 30) l.
Proof.
  split; [vm_compute; reflexivity |].
  split; [vm_compute; reflexivity |].
  split; [vm_compute; reflexivity |].
  eexists. split; [vm_compute; reflexivity |].
  vm_compute. do 17 right. left. reflexivity.
Qed.

(** C4 (amended): the working-hours test looks at hour components only.  A
    slot whose start hour is at least [work_start] is classified valid
    whenever the hour component of its end is at most [work_end]: ending at
    [work_end]:00, at [work_end]:01 or at any instant up to the last
    microsecond of [work_end]:59 are all valid.  A slot is rejected on
    account of its end exactly when the hour component of the end exceeds
    [work_end]. *)
Theorem work_hours_test_hour_only work_start work_end cur d m us :
  0 <= work_end < 24 ->
  0 <= m < 60 ->
  0 <= us < MINUTE ->
  work_start <= hour cur ->
  in_work_hours work_start work_end cur (at_hm d work_end m + us) = true /\
  (forall cur_end,
      in_work_hours work_start work_end cur cur_end = false <->
      work_end < hour cur_end).
Proof.
  intros Hw Hm Hus Hs. unfold in_work_hours. split.
  - rewrite hour_at_hm by assumption.
    apply andb_true_intro. split; apply Z.leb_le; lia.
  - intros cur_end.
    destruct (Z.leb_spec work_start (hour cur)); [| lia]. simpl.
    destruct (Z.leb_spec (hour cur_end) work_end); split; intros; try lia;
      congruence.
Qed.

Lemma work_hours_test_hour_only_witness :
  in_work_hours 9 18 (at_hm D0 17 30) (at_hm D0 18 1 + 0) = true /\
  (forall cur_end,
      in_work_hours 9 18 (at_hm D0 17 30) cur_end = false <->
      18 < hour cur_end).
Proof.
  apply (work_hours_test_hour_only 9 18 (at_hm D0 17 30) D0 1 0).
  - lia.
  - lia.
  - unfold MINUTE. lia.
  - vm_compute. discriminate.
Defined.

(** ** Calendars *)

Section Calendars.

Implicit Types (st : session_state) (busy : list interval) (p : string).

Lemma clip_intervals_app busy1 busy2 a b :
  clip_intervals (busy1 ++ busy2) a b
  = clip_intervals busy1 a b ++ clip_intervals busy2 a b.
Proof.
  induction busy1 as [| [s e] busy1 IH]; simpl; [reflexivity |].
  destruct ((e <? a) || (s >? b)); simpl; now rewrite IH.
Qed.

(** An interval that meets the closed window, even in a single instant,
    makes the answer non-empty. *)
Lemma clip_intervals_truthy busy s e a b :
  In (s, e) busy -> a <= e -> s <= b ->
  truthy (clip_intervals busy a b) = true.
Proof.
  intros Hin Ha Hb.
  induction busy as [| [s' e'] busy IH]; simpl; [destruct Hin |].
  destruct ((e' <? a) || (s' >? b)) eqn:E; [| reflexivity].
  destruct Hin as [Heq | Hin]; [| auto].
  inversion Heq; subst. apply orb_prop in E as [E | E].
  - apply Z.ltb_lt in E. lia.
  - apply Z.gtb_lt in E. lia.
Qed.

Lemma truthy_app {A} (l1 l2 : list A) :
  truthy l1 = true -> truthy (l1 ++ l2) = true.
Proof. destruct l1; [discriminate | reflexivity]. Qed.

Lemma conflict_loop_true st ps a b :
  conflict_loop st ps a b = true <->
  exists p, In p ps /\ truthy (get_free_busy_for_participant st p a b) = true.
Proof.
  induction ps as [| q ps IH]; simpl.
  - split; [discriminate | intros (p & [] & _)].
  - destruct (truthy (get_free_busy_for_participant st q a b)) eqn:E.
    + split; [eauto | reflexivity].
    + rewrite IH. split; intros (p & Hp & Ht); [eauto |].
      destruct Hp as [<- | Hp]; [congruence | eauto].
Qed.

Lemma lookup_mark_busy s e (cals : gmap string (list interval)) p q :
  mark_busy s e cals p !! q
  = if decide (p = q) then Some (default [] (cals !! p) ++ [(s, e)])
    else cals !! q.
Proof. unfold mark_busy. apply lookup_insert. Qed.

(** The [for p in ...] loop of the handler leaves the other calendars
    alone ... *)
Lemma foldl_mark_busy_other s e ps : forall (cals : gmap string (list interval)) q,
  ~ In q ps ->
  foldl (mark_busy s e) cals ps !! q = cals !! q.
Proof.
  induction ps as [| p ps IH]; intros cals q Hq; simpl; [reflexivity |].
  rewrite IH by (intros H; apply Hq; now right).
  rewrite lookup_mark_busy. destruct (decide (p = q)) as [-> |]; [| reflexivity].
  destruct Hq. now left.
Qed.

(** ... and appends the interval, once for each occurrence of the name, to
    the calendars of those listed. *)
Lemma foldl_mark_busy_listed s e ps : forall (cals : gmap string (list interval)) q,
  In q ps ->
  exists k, (0 < k)%nat /\
    foldl (mark_busy s e) cals ps !! q
    = Some (default [] (cals !! q) ++ replicate k (s, e)).
Proof.
  induction ps as [| p ps IH]; intros cals q Hq; simpl; [destruct Hq |].
  destruct (decide (p = q)) as [-> | Hne].
  - destruct (in_dec string_dec q ps) as [Hin | Hnin].
    + destruct (IH (mark_busy s e cals q) q Hin) as (k & Hk & E).
      exists (S k). split; [lia |].
      rewrite E, lookup_mark_busy. destruct (decide (q = q)); [| congruence].
      simpl. now rewrite <- app_assoc.
    + exists 1%nat. split; [lia |].
      rewrite foldl_mark_busy_other by assumption.
      rewrite lookup_mark_busy. destruct (decide (q = q)); [| congruence].
      reflexivity.
  - destruct Hq as [-> | Hq]; [congruence |].
    destruct (IH (mark_busy s e cals p) q Hq) as (k & Hk & E).
    exists k. split; [exact Hk |].
    rewrite E, lookup_mark_busy. destruct (decide (p = q)); [congruence |].
    reflexivity.
Qed.

Lemma add_busy_grows st p s e : grows st (add_busy st p s e).
Proof.
  intros q a b. unfold get_free_busy_for_participant, add_busy. simpl.
  rewrite lookup_mark_busy. destruct (decide (p = q)) as [-> |]; [| auto].
  simpl. rewrite clip_intervals_app. apply truthy_app.
Qed.

Lemma has_conflict_grows st st' parsed a b :
  grows st st' ->
  has_conflict st parsed a b = true -> has_conflict st' parsed a b = true.
Proof.
  intros Hg. unfold has_conflict. rewrite !conflict_loop_true.
  intros (p & Hp & Ht). exists p. auto.
Qed.

Lemma slots_loop_grows st st' parsed duration step ws we :
  grows st st' ->
  forall fuel cur l1,
    slots_loop fuel st parsed duration step ws we cur = Returned l1 ->
    exists l2,
      slots_loop fuel st' parsed duration step ws we cur = Returned l2 /\
      l2 `sublist_of` l1.
Proof.
  intros Hg. induction fuel as [| fuel IH]; intros cur l1 Hl; [discriminate |].
  apply slots_loop_inv in Hl
    as [Hce [[Hgt ->] | [Hle (rest & Et & Hn & Hrest & ->)]]].
  - exists []. split; [now apply slots_loop_exit | constructor].
  - destruct (IH _ _ Hrest) as (rest' & Hrest' & Hsub).
    rewrite (slots_loop_round _ _ _ _ _ _ _ _ Hce Hle Et Hn), Hrest'. simpl.
    eexists. split; [reflexivity |].
    destruct (in_work_hours ws we cur (cur + duration)); simpl;
      [| exact Hsub].
    destruct (has_conflict st parsed cur (cur + duration)) eqn:Ec.
    + rewrite (has_conflict_grows _ _ _ _ _ Hg Ec). exact Hsub.
    + simpl. destruct (has_conflict st' parsed cur (cur + duration)); simpl.
      * now apply sublist_cons.
      * now apply sublist_skip.
Qed.

(** The loop reads the request only through its window end and its
    conflict test. *)
Lemma slots_loop_ext st parsed parsed' duration step ws we :
  date_to parsed = date_to parsed' ->
  (forall a b, has_conflict st parsed a b = has_conflict st parsed' a b) ->
  forall fuel cur,
    slots_loop fuel st parsed duration step ws we cur
    = slots_loop fuel st parsed' duration step ws we cur.
Proof.
  intros Hd Hc. induction fuel as [| fuel IH]; intros cur; [reflexivity |].
  simpl. destruct (add cur duration) as [ce | |]; simpl; try reflexivity.
  rewrite <- Hd. destruct (ce <=? date_to parsed); [| reflexivity].
  destruct (timedelta_minutes step) as [sus | |]; simpl; try reflexivity.
  destruct (add cur sus) as [next | |]; simpl; try reflexivity.
  now rewrite IH, Hc.
Qed.

Lemma conflict_loop_drop_unknown st p ps1 ps2 a b :
  get_free_busy_for_participant st p a b = [] ->
  conflict_loop st (ps1 ++ p :: ps2) a b = conflict_loop st (ps1 ++ ps2) a b.
Proof.
  intros Hp. induction ps1 as [| q ps1 IH]; simpl.
  - now rewrite Hp.
  - now rewrite IH.
Qed.

End Calendars.

(** C8 (conflict monotonicity): after a busy interval is added to the
    calendar of any participant, the slot finder run on the same request
    returns a subsequence of what it returned before: candidates can
    disappear, none can appear. *)
Theorem conflict_monotonicity fuel st parsed slot_step_mins work_start work_end
    p s e before :
  compute_candidate_slots fuel st parsed slot_step_mins work_start work_end
    = Returned before ->
  exists after,
    compute_candidate_slots fuel (add_busy st p s e) parsed slot_step_mins
      work_start work_end = Returned after /\
    after `sublist_of` before /\
    (forall c, In c after -> In c before).
Proof.
  unfold compute_candidate_slots. intros H.
  destruct (timedelta_minutes (duration_mins parsed)) as [d | |];
    try discriminate.
  destruct (replace_hour (date_from parsed) work_start) as [cur | |];
    try discriminate.
  simpl in *.
  destruct (slots_loop_grows _ _ parsed d slot_step_mins work_start work_end
              (add_busy_grows st p s e) _ _ _ H) as (after & Ha & Hsub).
  exists after. repeat split; try assumption.
  intros c Hc. apply list_elem_of_In. apply list_elem_of_In in Hc.
  eapply sublist_submseteq, submseteq_Permutation in Hsub as [k Hk].
  rewrite Hk. apply elem_of_app. now left.
Qed.

Lemma conflict_monotonicity_witness :
  exists after,
    compute_candidate_slots 19 (add_busy empty_store "You" (at_hm D0 14 0) (at_hm D0 15 0))
      afternoon_request 30 9 18 = Returned after /\
    after `sublist_of`
      [at_hm D0 9 0; at_hm D0 9 30; at_hm D0 10 0; at_hm D0 10 30;
       at_hm D0 11 0; at_hm D0 11 30; at_hm D0 12 0; at_hm D0 12 30;
       at_hm D0 13 0; at_hm D0 13 30; at_hm D0 14 0; at_hm D0 14 30;
       at_hm D0 15 0; at_hm D0 15 30; at_hm D0 16 0; at_hm D0 16 30;
       at_hm D0 17 0; at_hm D0 17 30] /\
    (forall c, In c after ->
       In c [at_hm D0 9 0; at_hm D0 9 30; at_hm D0 10 0; at_hm D0 10 30;
             at_hm D0 11 0; at_hm D0 11 30; at_hm D0 12 0; at_hm D0 12 30;
             at_hm D0 13 0; at_hm D0 13 30; at_hm D0 14 0; at_hm D0 14 30;
             at_hm D0 15 0; at_hm D0 15 30; at_hm D0 16 0; at_hm D0 16 30;
             at_hm D0 17 0; at_hm D0 17 30]).
Proof.
  apply (conflict_monotonicity 19 empty_store afternoon_request 30 9 18
           "You" (at_hm D0 14 0) (at_hm D0 15 0)).
  vm_compute. reflexivity.
Defined.

(** C9: a participant without an entry in the store has no busy interval in
    any window (the query returns the empty list and cannot fail), and the
    slot finder returns the same thing whether or not that participant is
    listed in the request. *)
Theorem unknown_participant_is_free st p :
  sim_calendars st !! p = None ->
  (forall a b, get_free_busy_for_participant st p a b = []) /\
  (forall fuel parsed ps1 ps2 slot_step_mins work_start work_end,
     participants parsed = ps1 ++ p :: ps2 ->
     compute_candidate_slots fuel st parsed slot_step_mins work_start work_end
     = compute_candidate_slots fuel st (with_participants parsed (ps1 ++ ps2))
         slot_step_mins work_start work_end).
Proof.
  intros Hp.
  assert (Hfree : forall a b, get_free_busy_for_participant st p a b = []).
  { intros a b. unfold get_free_busy_for_participant. now rewrite Hp. }
  split; [exact Hfree |].
  intros fuel parsed ps1 ps2 step ws we Hps.
  unfold compute_candidate_slots. simpl.
  destruct (timedelta_minutes (duration_mins parsed)) as [d | |]; simpl;
    try reflexivity.
  destruct (replace_hour (date_from parsed) ws) as [cur | |]; simpl;
    try reflexivity.
  apply slots_loop_ext; [reflexivity |].
  intros a b. unfold has_conflict. simpl. rewrite Hps, <- !app_assoc. simpl.
  apply conflict_loop_drop_unknown, Hfree.
Qed.

Lemma unknown_participant_is_free_witness :
  (forall a b, get_free_busy_for_participant (scenario1_store D0) "Zed" a b = []) /\
  (forall fuel parsed ps1 ps2 slot_step_mins work_start work_end,
     participants parsed = ps1 ++ "Zed" :: ps2 ->
     compute_candidate_slots fuel (scenario1_store D0) parsed slot_step_mins
       work_start work_end
     = compute_candidate_slots fuel (scenario1_store D0)
         (with_participants parsed (ps1 ++ ps2))
         slot_step_mins work_start work_end).
Proof.
  apply (unknown_participant_is_free (scenario1_store D0) "Zed").
  vm_compute. reflexivity.
Defined.

(** ** The commit *)

Lemma finalize_and_book_Returned parsed slot link now st st' :
  finalize_and_book parsed slot link now st = (st', Returned ()) ->
  let slot_end := slot + duration_mins parsed * MINUTE in
  0 <= slot_end < MAX_DATETIME /\
  sim_calendars st'
  = foldl (mark_busy slot slot_end) (sim_calendars st)
      (participants parsed ++ ["You"]) /\
  bookings st'
  = bookings st ++
      [{| booking_title := title parsed; booking_slot := slot;
          booking_participants := participants parsed ++ ["You"];
          booking_link := link; booking_created_at := now |}].
Proof.
  unfold finalize_and_book. intros H.
  destruct (timedelta_minutes (duration_mins parsed)) as [d | |] eqn:Ed;
    simpl in H; try (inversion H; fail).
  apply timedelta_minutes_Returned in Ed as ->.
  destruct (add slot (duration_mins parsed * MINUTE)) as [e | |] eqn:Ee;
    simpl in H; try (inversion H; fail).
  apply add_Returned in Ee as [-> Hr].
  inversion H; subst; simpl. auto.
Qed.

(** C2, as stated, fails: "You" is busy from 09:00 to 10:00, the slot
    09:00-09:30 conflicts at commit time, and the commit still succeeds,
    logs the booking and adds the slot to the calendar. *)
Lemma commit_books_conflicting_slot :
  has_conflict (scenario1_store D0) (scenario1_request D0)
    (at_hm D0 9 0) (at_hm D0 9 30) = true /\
  exists st',
    finalize_and_book (scenario1_request D0) (at_hm D0 9 0) "link" (at_hm D0 8 0)
      (scenario1_store D0) = (st', Returned ()) /\
    sim_calendars st' !! "You"
    = Some [(at_hm D0 9 0, at_hm D0 10 0); (at_hm D0 9 0, at_hm D0 9 30)] /\
    length (bookings st') = 1%nat.
Proof.
  split; [vm_compute; reflexivity |].
  eexists. split; [unfold finalize_and_book; simpl; reflexivity |].
  split; vm_compute; reflexivity.
Qed.

(** C2 (amended): the commit re-checks nothing and has no conflict error.
    Whenever the end of the slot is a representable instant it succeeds,
    whatever the store holds: it logs one booking and the busy interval from
    the slot to its end is then in the calendar of every participant of the
    request and of "You". *)
Theorem commit_without_recheck parsed slot link now st d slot_end :
  timedelta_minutes (duration_mins parsed) = Returned d ->
  add slot d = Returned slot_end ->
  exists st',
    finalize_and_book parsed slot link now st = (st', Returned ()) /\
    length (bookings st') = S (length (bookings st)) /\
    (forall p, In p (participants parsed ++ ["You"]) ->
       In (slot, slot_end) (default [] (sim_calendars st' !! p))).
Proof.
  intros Hd He. unfold finalize_and_book. rewrite Hd. simpl. rewrite He.
  eexists. split; [reflexivity |]. simpl. split.
  - rewrite length_app. simpl. lia.
  - intros p Hp.
    destruct (foldl_mark_busy_listed slot slot_end _ (sim_calendars st) p Hp)
      as (k & Hk & ->).
    simpl. apply in_or_app. right.
    destruct k as [| k]; [lia |]. now left.
Qed.

Lemma commit_without_recheck_witness :
  exists st',
    finalize_and_book (scenario1_request D0) (at_hm D0 9 0) "link" (at_hm D0 8 0)
      (scenario1_store D0) = (st', Returned ()) /\
    length (bookings st') = S (length (bookings (scenario1_store D0))) /\
    (forall p, In p (participants (scenario1_request D0) ++ ["You"]) ->
       In (at_hm D0 9 0, at_hm D0 9 30) (default [] (sim_calendars st' !! p))).
Proof.
  apply (commit_without_recheck (scenario1_request D0) (at_hm D0 9 0) "link"
           (at_hm D0 8 0) (scenario1_store D0) (30 * MINUTE) (at_hm D0 9 30)).
  - vm_compute. reflexivity.
  - vm_compute. reflexivity.
Defined.

(** C5: after a successful commit of the slot [c] for a request of
    non-negative duration [d], the interval from [c] to [c + d] has been
    appended (once per occurrence of the name) to the calendar of each
    participant of the request and of "You", and a slot finder run on the
    same request right afterwards does not return [c], whatever the step
    and working hours. *)
Theorem commit_then_find parsed slot link now st st' :
  0 <= duration_mins parsed ->
  finalize_and_book parsed slot link now st = (st', Returned ()) ->
  (forall p, In p (participants parsed ++ ["You"]) ->
     exists k, (0 < k)%nat /\
       sim_calendars st' !! p
       = Some (default [] (sim_calendars st !! p)
               ++ replicate k ((slot, slot + duration_mins parsed * MINUTE) : interval))) /\
  (forall fuel slot_step_mins work_start work_end l,
     compute_candidate_slots fuel st' parsed slot_step_mins work_start work_end
       = Returned l ->
     ~ In slot l).
Proof.
  intros Hd Hf. apply finalize_and_book_Returned in Hf as (Hr & Hcal & _).
  assert (Hlisted : forall p, In p (participants parsed ++ ["You"]) ->
            exists k, (0 < k)%nat /\
              sim_calendars st' !! p
              = Some (default [] (sim_calendars st !! p)
                      ++ replicate k ((slot, slot + duration_mins parsed * MINUTE) : interval))).
  { intros p Hp. rewrite Hcal. now apply foldl_mark_busy_listed. }
  split; [exact Hlisted |].
  intros fuel step ws we l Hl Hin.
  apply compute_candidate_slots_inv in Hl as [_ Hl].
  destruct (slots_loop_sound _ _ _ _ _ _ _ _ _ Hl slot Hin) as (_ & _ & Hc).
  assert (Ht : has_conflict st' parsed slot
                 (slot + duration_mins parsed * MINUTE) = true);
    [| congruence].
  unfold has_conflict. apply conflict_loop_true. exists "You". split.
  - apply in_or_app. right. now left.
  - destruct (Hlisted "You") as (k & Hk & E);
      [apply in_or_app; right; now left |].
    unfold get_free_busy_for_participant. rewrite E. simpl.
    apply clip_intervals_truthy
      with (s := slot) (e := slot + duration_mins parsed * MINUTE).
    + apply in_or_app. right. destruct k as [| k]; [lia |]. now left.
    + unfold MINUTE. lia.
    + unfold MINUTE. lia.
Qed.

Lemma commit_then_find_witness :
  let st' := fst (finalize_and_book afternoon_request (at_hm D0 14 0) "link"
                    (at_hm D0 8 0) empty_store) in
  (forall p, In p (participants afternoon_request ++ ["You"]) ->
     exists k, (0 < k)%nat /\
       sim_calendars st' !! p
       = Some (default [] (sim_calendars empty_store !! p)
               ++ replicate k ((at_hm D0 14 0,
                                at_hm D0 14 0 + duration_mins afternoon_request * MINUTE)
                               : interval))) /\
  (forall fuel slot_step_mins work_start work_end l,
     compute_candidate_slots fuel st' afternoon_request slot_step_mins
       work_start work_end = Returned l ->
     ~ In (at_hm D0 14 0) l).
Proof.
  apply (commit_then_find afternoon_request (at_hm D0 14 0) "link"
           (at_hm D0 8 0) empty_store).
  - vm_compute. discriminate.
  - unfold finalize_and_book. simpl. reflexivity.
Defined.

(** ** Scenario 1 *)

Lemma scenario1_conflict d a b :
  has_conflict (scenario1_store d) (scenario1_request d) a b
  = negb ((at_hm d 10 0 <? a) || (at_hm d 9 0 >? b)).
Proof.
  unfold has_conflict, scenario1_request, scenario1_store. simpl.
  unfold get_free_busy_for_participant. simpl.
  rewrite lookup_singleton_eq. simpl.
  destruct ((at_hm d 10 0 <? a) || (at_hm d 9 0 >? b)); reflexivity.
Qed.

(** A round of the loop that appends nothing. *)
Lemma slots_loop_skip fuel st parsed duration step ws we cur :
  0 <= cur + duration < MAX_DATETIME ->
  cur + duration <= date_to parsed ->
  timedelta_minutes step = Returned (step * MINUTE) ->
  0 <= cur + step * MINUTE < MAX_DATETIME ->
  in_work_hours ws we cur (cur + duration)
    && negb (has_conflict st parsed cur (cur + duration)) = false ->
  slots_loop (S fuel) st parsed duration step ws we cur
  = slots_loop fuel st parsed duration step ws we (cur + step * MINUTE).
Proof.
  intros Hce Hle Et Hn Hk.
  rewrite (slots_loop_round _ _ _ _ _ _ _ _ Hce Hle Et Hn), Hk.
  destruct (slots_loop fuel st parsed duration step ws we (cur + step * MINUTE));
    reflexivity.
Qed.

(** A round of the loop that appends its cursor. *)
Lemma slots_loop_keep fuel st parsed duration step ws we cur rest :
  0 <= cur + duration < MAX_DATETIME ->
  cur + duration <= date_to parsed ->
  timedelta_minutes step = Returned (step * MINUTE) ->
  0 <= cur + step * MINUTE < MAX_DATETIME ->
  in_work_hours ws we cur (cur + duration)
    && negb (has_conflict st parsed cur (cur + duration)) = true ->
  slots_loop fuel st parsed duration step ws we (cur + step * MINUTE)
    = Returned rest ->
  slots_loop (S fuel) st parsed duration step ws we cur = Returned (cur :: rest).
Proof.
  intros Hce Hle Et Hn Hk Hrest.
  rewrite (slots_loop_round _ _ _ _ _ _ _ _ Hce Hle Et Hn), Hk, Hrest.
  reflexivity.
Qed.

(** C1 (amended): in scenario 1, on any day, the first candidate returned is
    10:30.  The slots starting at 09:00 and 09:30 overlap the busy interval,
    and the slot starting at 10:00 touches it at the instant 10:00, which the
    busy-within query, closed on both sides, also reports. *)
Theorem scenario1_first_candidate d fuel :
  0 <= d < MAX_DAYS ->
  (19 <= fuel)%nat ->
  exists rest,
    compute_candidate_slots_default fuel (scenario1_store d) (scenario1_request d)
    = Returned (at_hm d 10 30 :: rest).
Proof.
  intros Hd Hf.
  unfold compute_candidate_slots_default, compute_candidate_slots.
  assert (Et : timedelta_minutes 30 = Returned (30 * MINUTE)) by reflexivity.
  change (duration_mins (scenario1_request d)) with 30.
  change (date_from (scenario1_request d)) with (at_hm d 9 0).
  rewrite Et. simpl mbind.
  change (replace_hour (at_hm d 9 0) 9)
    with (Returned (at_hm d 9 0 / DAY * DAY + 9 * HOUR) : outcome datetime).
  rewrite day_at_hm by lia.
  unfold mbind, outcome_bind.
  do 4 (destruct fuel as [| fuel]; [lia |]).
  assert (Hto : date_to (scenario1_request d) = d * DAY + 18 * HOUR)
    by (simpl; unfold at_hm; lia).
  unfold MAX_DAYS in Hd.
  assert (Hin : forall cur, d * DAY + 9 * HOUR <= cur <= d * DAY + 18 * HOUR ->
                  0 <= cur < MAX_DATETIME)
    by (intros cur; unfold MAX_DATETIME, MAX_DAYS, DAY, HOUR; lia).
  assert (Hbusy : forall cur,
            d * DAY + 9 * HOUR <= cur <= d * DAY + 10 * HOUR ->
            in_work_hours 9 18 cur (cur + 30 * MINUTE)
            && negb (has_conflict (scenario1_store d) (scenario1_request d) cur
                       (cur + 30 * MINUTE)) = false).
  { intros cur Hc. apply andb_false_intro2. rewrite scenario1_conflict.
    replace (at_hm d 10 0 <? cur) with false by (symmetry; apply Z.ltb_ge; clock).
    replace (at_hm d 9 0 >? cur + 30 * MINUTE) with false
      by (symmetry; rewrite Z.gtb_ltb; apply Z.ltb_ge; clock).
    reflexivity. }
  do 3 (rewrite slots_loop_skip;
        [| apply Hin; clock | rewrite Hto; clock | exact Et | apply Hin; clock
         | apply Hbusy; clock]).
  set (cur := d * DAY + 9 * HOUR + 30 * MINUTE + 30 * MINUTE + 30 * MINUTE).
  replace (at_hm d 10 30) with cur by (unfold cur; clock).
  destruct (slots_loop_returns (scenario1_store d) (scenario1_request d)
              (30 * MINUTE) 30 9 18 fuel ltac:(lia) Et (cur + 30 * MINUTE))
    as [rest Hrest].
  - unfold cur. clock.
  - apply Hin. unfold cur. clock.
  - rewrite Hto. clock.
  - rewrite Hto. clock.
  - unfold iterations. rewrite Hto.
    replace (d * DAY + 18 * HOUR - (cur + 30 * MINUTE + 30 * MINUTE))
      with 23400000000 by (unfold cur; clock).
    change (Z.to_nat (23400000000 / (30 * MINUTE) + 1)) with 14%nat. lia.
  - exists rest. apply slots_loop_keep; try assumption.
    + apply Hin. unfold cur. clock.
    + rewrite Hto. unfold cur. clock.
    + apply Hin. unfold cur. clock.
    + unfold in_work_hours.
      rewrite (hour_between d 10 cur) by (unfold cur; clock).
      rewrite (hour_between d 11 (cur + 30 * MINUTE)) by (unfold cur; clock).
      rewrite scenario1_conflict.
      replace (at_hm d 10 0 <? cur) with true
        by (symmetry; apply Z.ltb_lt; unfold cur; clock).
      reflexivity.
Qed.

Lemma scenario1_first_candidate_witness :
  exists rest,
    compute_candidate_slots_default 19 (scenario1_store D0) (scenario1_request D0)
    = Returned (at_hm D0 10 30 :: rest).
Proof.
  apply (scenario1_first_candidate D0 19).
  - unfold D0, MAX_DAYS. lia.
  - apply le_n.
Defined.

(** C1, as stated, fails: on 2025-01-06 the first candidate of scenario 1 is
    10:30, and 10:00 is not a candidate at all. *)
Lemma scenario1_first_candidate_not_ten :
  exists l,
    compute_candidate_slots_default 19 (scenario1_store D0) (scenario1_request D0)
      = Returned l /\
    head l = Some (at_hm D0 10 30) /\
    head l <> Some (at_hm D0 10 0) /\
    ~ In (at_hm D0 10 0) l.
Proof.
  eexists. split; [vm_compute; reflexivity |].
  split; [vm_compute; reflexivity |].
  split; [vm_compute; discriminate |].
  vm_compute. intros H.
  repeat (destruct H as [H | H]; [discriminate H |]). exact H.
Qed.

(** ** The participants rule *)

Example participants_comma_and_word :
  parse_request_participants "Schedule a sync with Priya, Alex and Bob"
  = ["Priya"; "Alex"; "Bob"].
Proof. vm_compute. reflexivity. Qed.

Example participants_trailing_words :
  parse_request_participants
    "Schedule a 45 min interview with Priya and Alex next Thursday at afternoon"
  = ["Priya"; "Alex Next Thursday At Afternoon"].
Proof. vm_compute. reflexivity. Qed.

(** Without a match of the pattern the fallback list is the answer. *)
Lemma participants_fallback text :
  Str.search_with (Str.lower text) = None ->
  parse_request_participants text = FALLBACK_PARTICIPANTS.
Proof. unfold parse_request_participants. now intros ->. Qed.

Example participants_no_with_clause :
  parse_request_participants "Book a 1 hour review tomorrow" = ["Priya"; "Alex"].
Proof. vm_compute. reflexivity. Qed.

(** C6: on the request "Schedule a 30 min sync with Sandy" the participants
    computed are "S" and "Y": the letters "and" inside the name are replaced
    by a comma like the word would be, where splitting on the word "and"
    gives the one participant "Sandy". *)
Theorem participants_and_inside_name :
  Str.search_with (Str.lower "Schedule a 30 min sync with Sandy") = Some "sandy" /\
  Str.replace_and "sandy" = "s,y" /\
  parse_request_participants "Schedule a 30 min sync with Sandy" = ["S"; "Y"] /\
  parse_request_participants "Schedule a 30 min sync with Sandy" <> ["Sandy"].
Proof.
  split; [vm_compute; reflexivity |].
  split; [vm_compute; reflexivity |].
  split; [vm_compute; reflexivity |].
  vm_compute. discriminate.
Qed.

(** * Further properties of the code *)

(** ** The slot finder: order, grid and completeness *)

Section SlotFinderMore.

Variables (st : session_state) (parsed : request) (duration : timedelta).
Variables (slot_step_mins work_start work_end : Z).

Local Abbreviation loop fuel cur :=
  (slots_loop fuel st parsed duration slot_step_mins work_start work_end cur).

(** Every element of the returned list is the cursor advanced by a whole
    number of steps. *)
Lemma slots_loop_grid fuel : forall cur l,
  loop fuel cur = Returned l ->
  forall c, In c l ->
    exists k : nat, c = cur + Z.of_nat k * (slot_step_mins * MINUTE).
Proof.
  induction fuel as [| fuel IH]; intros cur l Hl c Hc; [discriminate |].
  apply slots_loop_inv in Hl as [_ [[_ ->] | [_ (rest & _ & _ & Hrest & ->)]]];
    [destruct Hc |].
  assert (Hrec : In c rest ->
            exists k : nat, c = cur + Z.of_nat k * (slot_step_mins * MINUTE)).
  { intros Hin. destruct (IH _ _ Hrest c Hin) as [k ->]. exists (S k). lia. }
  destruct (_ && _); [| auto].
  destruct Hc as [<- | Hc]; [exists 0%nat; lia | auto].
Qed.

(** With a positive step the returned list is strictly increasing and starts
    no earlier than the cursor. *)
Lemma slots_loop_sorted fuel : forall cur l,
  0 < slot_step_mins ->
  loop fuel cur = Returned l ->
  Forall (fun c => cur <= c) l /\ StronglySorted Z.lt l.
Proof.
  intros cur l Hs. revert cur l.
  assert (Hstep : 0 < slot_step_mins * MINUTE) by (unfold MINUTE; lia).
  induction fuel as [| fuel IH]; intros cur l Hl; [discriminate |].
  apply slots_loop_inv in Hl as [_ [[_ ->] | [_ (rest & _ & _ & Hrest & ->)]]].
  - split; constructor.
  - destruct (IH _ _ Hrest) as [Hlow Hsorted].
    assert (Hlow' : Forall (fun c => cur < c) rest).
    { eapply Forall_impl; [exact Hlow |]. simpl. intros c Hc. lia. }
    destruct (_ && _).
    + split.
      * constructor; [lia |]. eapply Forall_impl; [exact Hlow' |].
        simpl. intros; lia.
      * constructor; assumption.
    + split; [| exact Hsorted].
      eapply Forall_impl; [exact Hlow' |]. simpl. intros; lia.
Qed.

(** With a positive step no free slot of the grid is missed. *)
Lemma slots_loop_complete fuel : forall cur l,
  0 < slot_step_mins ->
  loop fuel cur = Returned l ->
  forall k : nat,
    let c := cur + Z.of_nat k * (slot_step_mins * MINUTE) in
    c + duration <= date_to parsed ->
    in_work_hours work_start work_end c (c + duration) = true ->
    has_conflict st parsed c (c + duration) = false ->
    In c l.
Proof.
  intros cur l Hs. revert cur l.
  assert (Hstep : 0 < slot_step_mins * MINUTE) by (unfold MINUTE; lia).
  induction fuel as [| fuel IH]; intros cur l Hl k c Hend Hw Hc; [discriminate |].
  apply slots_loop_inv in Hl as [_ [[Hgt ->] | [_ (rest & _ & _ & Hrest & ->)]]].
  - subst c. nia.
  - destruct k as [| k].
    + subst c. simpl in *. rewrite Z.add_0_r in *. rewrite Hw, Hc. now left.
    + assert (Hin : In c rest).
      { assert (Ec : c = cur + slot_step_mins * MINUTE
                         + Z.of_nat k * (slot_step_mins * MINUTE))
          by (subst c; lia).
        rewrite Ec in *. now apply (IH _ _ Hrest k). }
      destruct (_ && _); [now right | exact Hin].
Qed.

End SlotFinderMore.

(** The cursor the scan starts from. *)
Lemma compute_candidate_slots_cursor fuel st parsed slot_step_mins work_start work_end l :
  compute_candidate_slots fuel st parsed slot_step_mins work_start work_end
    = Returned l ->
  hour (date_from parsed / DAY * DAY + work_start * HOUR) = work_start /\
  (date_from parsed / DAY * DAY + work_start * HOUR) / DAY = date_from parsed / DAY.
Proof.
  intros H. apply compute_candidate_slots_inv in H as [Hw _]. split.
  - apply (hour_between (date_from parsed / DAY)); [lia | clock].
  - symmetry. apply Z.div_unique with (work_start * HOUR); clock.
Qed.

(** X1: with a positive step the candidates come out in strictly increasing
    order (so without repetition). *)
Theorem candidates_strictly_increasing fuel st parsed slot_step_mins work_start
    work_end l :
  0 < slot_step_mins ->
  compute_candidate_slots fuel st parsed slot_step_mins work_start work_end
    = Returned l ->
  StronglySorted Z.lt l.
Proof.
  intros Hs Hl. apply compute_candidate_slots_inv in Hl as [_ Hl].
  now apply slots_loop_sorted in Hl.
Qed.

Lemma candidates_strictly_increasing_witness :
  StronglySorted Z.lt
    [at_hm D0 10 30; at_hm D0 11 0; at_hm D0 11 30; at_hm D0 12 0;
     at_hm D0 12 30; at_hm D0 13 0; at_hm D0 13 30; at_hm D0 14 0;
     at_hm D0 14 30; at_hm D0 15 0; at_hm D0 15 30; at_hm D0 16 0;
     at_hm D0 16 30; at_hm D0 17 0; at_hm D0 17 30].
Proof.
  apply (candidates_strictly_increasing 19 (scenario1_store D0)
           (scenario1_request D0) 30 9 18).
  - lia.
  - vm_compute. reflexivity.
Defined.

(** X2: with a positive step the candidates are exactly the free slots of
    the grid: an instant is returned if and only if it is the working-start
    hour of the first day of the window plus a whole number of steps, the
    slot it starts ends within the window, passes the working-hours test and
    conflicts with nobody. *)
Theorem candidates_are_the_free_grid_slots fuel st parsed slot_step_mins
    work_start work_end l c :
  0 < slot_step_mins ->
  compute_candidate_slots fuel st parsed slot_step_mins work_start work_end
    = Returned l ->
  let d := duration_mins parsed * MINUTE in
  In c l <->
  (exists k : nat,
     c = date_from parsed / DAY * DAY + work_start * HOUR
         + Z.of_nat k * (slot_step_mins * MINUTE)) /\
  c + d <= date_to parsed /\
  in_work_hours work_start work_end c (c + d) = true /\
  has_conflict st parsed c (c + d) = false.
Proof.
  intros Hs Hl d. apply compute_candidate_slots_inv in Hl as [_ Hl]. split.
  - intros Hc. split; [exact (slots_loop_grid _ _ _ _ _ _ _ _ _ Hl c Hc) |].
    exact (slots_loop_sound _ _ _ _ _ _ _ _ _ Hl c Hc).
  - intros ([k ->] & Hend & Hw & Hc).
    exact (slots_loop_complete _ _ _ _ _ _ _ _ _ Hs Hl k Hend Hw Hc).
Qed.

Lemma candidates_are_the_free_grid_slots_witness :
  In (at_hm D0 10 30)
     [at_hm D0 10 30; at_hm D0 11 0; at_hm D0 11 30; at_hm D0 12 0;
      at_hm D0 12 30; at_hm D0 13 0; at_hm D0 13 30; at_hm D0 14 0;
      at_hm D0 14 30; at_hm D0 15 0; at_hm D0 15 30; at_hm D0 16 0;
      at_hm D0 16 30; at_hm D0 17 0; at_hm D0 17 30] <->
  (exists k : nat,
     at_hm D0 10 30
     = date_from (scenario1_request D0) / DAY * DAY + 9 * HOUR
       + Z.of_nat k * (30 * MINUTE)) /\
  at_hm D0 10 30 + duration_mins (scenario1_request D0) * MINUTE
    <= date_to (scenario1_request D0) /\
  in_work_hours 9 18 (at_hm D0 10 30)
    (at_hm D0 10 30 + duration_mins (scenario1_request D0) * MINUTE) = true /\
  has_conflict (scenario1_store D0) (scenario1_request D0) (at_hm D0 10 30)
    (at_hm D0 10 30 + duration_mins (scenario1_request D0) * MINUTE) = false.
Proof.
  apply (candidates_are_the_free_grid_slots 19 (scenario1_store D0)
           (scenario1_request D0) 30 9 18).
  - lia.
  - vm_compute. reflexivity.
Defined.

(** X4: with a positive step no candidate precedes the working-start hour of
    the day the window opens; when the window opens exactly at that hour,
    every candidate slot lies within the window. *)
Theorem candidates_not_before_cursor fuel st parsed slot_step_mins work_start
    work_end l c :
  0 < slot_step_mins ->
  compute_candidate_slots fuel st parsed slot_step_mins work_start work_end
    = Returned l ->
  In c l ->
  date_from parsed / DAY * DAY + work_start * HOUR <= c /\
  (date_from parsed mod DAY = work_start * HOUR ->
   date_from parsed <= c /\ c + duration_mins parsed * MINUTE <= date_to parsed).
Proof.
  intros Hs Hl Hc. apply compute_candidate_slots_inv in Hl as [_ Hl].
  destruct (slots_loop_sorted _ _ _ _ _ _ _ _ _ Hs Hl) as [Hlow _].
  rewrite Forall_forall in Hlow. apply list_elem_of_In in Hc.
  pose proof (Hlow c Hc) as Hge. split; [exact Hge |].
  intros Hal. split.
  - pose proof (Z.div_mod (date_from parsed) DAY ltac:(unfold DAY; lia)). lia.
  - apply list_elem_of_In in Hc.
    now destruct (slots_loop_sound _ _ _ _ _ _ _ _ _ Hl c Hc).
Qed.

Lemma candidates_not_before_cursor_witness :
  date_from (scenario1_request D0) / DAY * DAY + 9 * HOUR <= at_hm D0 10 30 /\
  (date_from (scenario1_request D0) mod DAY = 9 * HOUR ->
   date_from (scenario1_request D0) <= at_hm D0 10 30 /\
   at_hm D0 10 30 + duration_mins (scenario1_request D0) * MINUTE
     <= date_to (scenario1_request D0)).
Proof.
  refine (candidates_not_before_cursor 19 (scenario1_store D0)
            (scenario1_request D0) 30 9 18 _ (at_hm D0 10 30) _ _ _).
  - lia.
  - vm_compute. reflexivity.
  - vm_compute. auto.
Defined.

(** ** The busy-within query *)

Lemma clip_intervals_In busy a b x y :
  In (x, y) (clip_intervals busy a b) <->
  exists s e, In (s, e) busy /\ a <= e /\ s <= b /\
              x = Z.max s a /\ y = Z.min e b.
Proof.
  induction busy as [| [s e] busy IH]; simpl.
  - split; [intros [] | intros (? & ? & [] & _)].
  - destruct (Z.ltb_spec e a) as [He | He];
      [| destruct (Z.gtb_spec s b) as [Hs | Hs]]; simpl; rewrite ?IH.
    + split.
      * intros (s' & e' & Hin & H). exists s', e'. auto.
      * intros (s' & e' & [Heq | Hin] & H); [| eauto].
        inversion Heq; subst. lia.
    + split.
      * intros (s' & e' & Hin & H). exists s', e'. auto.
      * intros (s' & e' & [Heq | Hin] & H); [| eauto].
        inversion Heq; subst. lia.
    + split.
      * intros [Heq | (s' & e' & Hin & H)].
        -- inversion Heq; subst. exists s, e. repeat split; auto; lia.
        -- exists s', e'. auto.
      * intros (s' & e' & [Heq | Hin] & Ha & Hb & -> & ->).
        -- inversion Heq; subst. now left.
        -- right. exists s', e'. auto.
Qed.

(** X5: every interval the busy-within query returns lies inside the window
    asked for and inside an interval of the participant's calendar; if that
    interval and the window are well formed (start not after end), so is
    the returned one. *)
Theorem busy_within_clipped st name window_start window_end x y :
  In (x, y) (get_free_busy_for_participant st name window_start window_end) ->
  window_start <= x /\ y <= window_end /\
  exists s e,
    In (s, e) (default [] (sim_calendars st !! name)) /\
    s <= x /\ y <= e /\
    (s <= e -> window_start <= window_end -> x <= y).
Proof.
  unfold get_free_busy_for_participant. intros H.
  apply clip_intervals_In in H as (s & e & Hin & Ha & Hb & -> & ->).
  split; [lia |]. split; [lia |].
  exists s, e. repeat split; auto; lia.
Qed.

Lemma busy_within_clipped_witness :
  at_hm D0 9 30 <= at_hm D0 9 30 /\ at_hm D0 10 0 <= at_hm D0 11 0 /\
  exists s e,
    In (s, e) (default [] (sim_calendars (scenario1_store D0) !! "You")) /\
    s <= at_hm D0 9 30 /\ at_hm D0 10 0 <= e /\
    (s <= e -> at_hm D0 9 30 <= at_hm D0 11 0 -> at_hm D0 9 30 <= at_hm D0 10 0).
Proof.
  apply (busy_within_clipped (scenario1_store D0) "You").
  vm_compute. auto.
Defined.

Lemma clip_intervals_truthy_iff busy a b :
  truthy (clip_intervals busy a b) = true <->
  exists s e, In (s, e) busy /\ a <= e /\ s <= b.
Proof.
  split.
  - destruct (clip_intervals busy a b) as [| [x y] r] eqn:E; [discriminate |].
    intros _.
    assert (Hin : In (x, y) (clip_intervals busy a b)) by (rewrite E; now left).
    apply clip_intervals_In in Hin as (s & e & Hin & Ha & Hb & _).
    exists s, e. auto.
  - intros (s & e & Hin & Ha & Hb). eapply clip_intervals_truthy; eauto.
Qed.

(** X6: the busy-within query answers with a non-empty list exactly when
    some interval of the participant's calendar meets the closed window,
    be it in a single instant. *)
Theorem busy_within_nonempty_iff st name window_start window_end :
  truthy (get_free_busy_for_participant st name window_start window_end) = true
  <->
  exists s e,
    In (s, e) (default [] (sim_calendars st !! name)) /\
    window_start <= e /\ s <= window_end.
Proof. apply clip_intervals_truthy_iff. Qed.

Lemma candidates_shun_interval fuel st parsed slot_step_mins work_start work_end
    l c p s e :
  compute_candidate_slots fuel st parsed slot_step_mins work_start work_end
    = Returned l ->
  In c l ->
  In p (participants parsed ++ ["You"]) ->
  In (s, e) (default [] (sim_calendars st !! p)) ->
  e < c \/ c + duration_mins parsed * MINUTE < s.
Proof.
  intros Hl Hc Hp Hin. apply compute_candidate_slots_inv in Hl as [_ Hl].
  destruct (slots_loop_sound _ _ _ _ _ _ _ _ _ Hl c Hc) as (_ & _ & Hfree).
  destruct (Z_lt_ge_dec e c) as [| He]; [now left |].
  destruct (Z_lt_ge_dec (c + duration_mins parsed * MINUTE) s) as [| Hs];
    [now right |].
  exfalso.
  assert (Ht : has_conflict st parsed c (c + duration_mins parsed * MINUTE)
               = true); [| congruence].
  apply conflict_loop_true. exists p. split; [exact Hp |].
  unfold get_free_busy_for_participant.
  apply clip_intervals_truthy with (s := s) (e := e); [exact Hin | lia | lia].
Qed.

(** X3: a returned candidate slot is clear of every busy interval of every
    participant of the request and of "You": each such interval ends
    strictly before the slot starts or starts strictly after it ends. *)
Theorem candidates_clear_of_busy_intervals fuel st parsed slot_step_mins
    work_start work_end l c p s e :
  compute_candidate_slots fuel st parsed slot_step_mins work_start work_end
    = Returned l ->
  In c l ->
  In p (participants parsed ++ ["You"]) ->
  In (s, e) (default [] (sim_calendars st !! p)) ->
  e < c \/ c + duration_mins parsed * MINUTE < s.
Proof. apply candidates_shun_interval. Qed.

Lemma candidates_clear_of_busy_intervals_witness :
  at_hm D0 10 0 < at_hm D0 10 30 \/
  at_hm D0 10 30 + duration_mins (scenario1_request D0) * MINUTE < at_hm D0 9 0.
Proof.
  refine (candidates_clear_of_busy_intervals 19 (scenario1_store D0)
            (scenario1_request D0) 30 9 18 _ (at_hm D0 10 30) "You"
            (at_hm D0 9 0) (at_hm D0 10 0) _ _ _ _).
  - vm_compute. reflexivity.
  - vm_compute. auto.
  - vm_compute. auto.
  - vm_compute. auto.
Defined.

(** ** The slot finder: steps that are not positive, illegal hours *)

Lemma slots_loop_stuck st parsed duration slot_step_mins work_start work_end :
  slot_step_mins <= 0 ->
  forall fuel cur l,
    cur + duration <= date_to parsed ->
    slots_loop fuel st parsed duration slot_step_mins work_start work_end cur
      <> Returned l.
Proof.
  intros Hs. assert (Hstep : slot_step_mins * MINUTE <= 0) by (unfold MINUTE; lia).
  induction fuel as [| fuel IH]; intros cur l Hle H; [discriminate |].
  apply slots_loop_inv in H as [_ [[Hgt _] | [_ (rest & _ & _ & Hrest & _)]]];
    [lia |].
  eapply IH; [| exact Hrest]. lia.
Qed.

Lemma slots_loop_spins st parsed duration work_start work_end :
  forall fuel cur,
    0 <= cur < MAX_DATETIME ->
    0 <= cur + duration < MAX_DATETIME ->
    cur + duration <= date_to parsed ->
    slots_loop fuel st parsed duration 0 work_start work_end cur = OutOfFuel.
Proof.
  induction fuel as [| fuel IH]; intros cur Hc Hce Hle; [reflexivity |].
  rewrite slots_loop_round; try assumption; try reflexivity.
  - change (0 * MINUTE) with 0. rewrite Z.add_0_r.
    now rewrite IH.
  - change (0 * MINUTE) with 0. now rewrite Z.add_0_r.
Qed.

(** X7: when the step is zero or negative and the first slot of the scan
    fits the window, the slot finder returns no list, however long it is
    run; with a step of zero it runs for ever. *)
Theorem nonpositive_step_never_returns st parsed slot_step_mins work_start work_end :
  slot_step_mins <= 0 ->
  date_from parsed / DAY * DAY + work_start * HOUR + duration_mins parsed * MINUTE
    <= date_to parsed ->
  (forall fuel l,
     compute_candidate_slots fuel st parsed slot_step_mins work_start work_end
       <> Returned l) /\
  (slot_step_mins = 0 ->
   0 <= work_start <= 23 ->
   arithmetic_in_range parsed 0 work_start = true ->
   forall fuel,
     compute_candidate_slots fuel st parsed slot_step_mins work_start work_end
       = OutOfFuel).
Proof.
  intros Hs Hfit. split.
  - intros fuel l H. apply compute_candidate_slots_inv in H as [_ H].
    now apply slots_loop_stuck in H.
  - intros -> Hw Hr fuel.
    apply arithmetic_in_range_spec in Hr as (Hd & _ & Hfrom & Hcur & _ & Hm2).
    unfold compute_candidate_slots.
    rewrite (timedelta_minutes_in_range _ Hd). simpl.
    assert (Ec : replace_hour (date_from parsed) work_start
                 = Returned (date_from parsed / DAY * DAY + work_start * HOUR))
      by (apply replace_hour_Returned; auto).
    rewrite Ec. simpl.
    apply slots_loop_spins; try assumption.
    assert (0 <= date_from parsed / DAY) by (apply Z.div_pos; unfold DAY; lia).
    change (0 * MINUTE) with 0 in Hm2.
    split; [clock | lia].
Qed.

Lemma nonpositive_step_never_returns_witness :
  (forall fuel l,
     compute_candidate_slots fuel empty_store afternoon_request 0 9 18
       <> Returned l) /\
  (0 = 0 ->
   0 <= 9 <= 23 ->
   arithmetic_in_range afternoon_request 0 9 = true ->
   forall fuel,
     compute_candidate_slots fuel empty_store afternoon_request 0 9 18
       = OutOfFuel).
Proof.
  apply (nonpositive_step_never_returns empty_store afternoon_request 0 9 18).
  - lia.
  - vm_compute. discriminate.
Defined.



(** ** The commit: what it touches and what it leaves *)

Lemma grows_refl st : grows st st.
Proof. intros p a b H. exact H. Qed.

Lemma grows_trans st1 st2 st3 : grows st1 st2 -> grows st2 st3 -> grows st1 st3.
Proof. intros H12 H23 p a b H. apply H23, H12, H. Qed.

Lemma grows_calendars st st' :
  (forall p, exists more,
      default [] (sim_calendars st' !! p)
      = default [] (sim_calendars st !! p) ++ more) ->
  grows st st'.
Proof.
  intros H p a b. unfold get_free_busy_for_participant.
  destruct (H p) as [more ->]. rewrite clip_intervals_app. apply truthy_app.
Qed.

(** Whatever the loop of the handler does to a calendar, it does at its
    end. *)
Lemma foldl_mark_busy_extends s e ps : forall (cals : gmap string (list interval)) q,
  exists k,
    default [] (foldl (mark_busy s e) cals ps !! q)
    = default [] (cals !! q) ++ replicate k (s, e).
Proof.
  intros cals q. destruct (in_dec string_dec q ps) as [Hin | Hnin].
  - destruct (foldl_mark_busy_listed s e ps cals q Hin) as (k & _ & ->).
    exists k. reflexivity.
  - exists 0%nat. rewrite foldl_mark_busy_other by assumption.
    simpl. now rewrite app_nil_r.
Qed.

Lemma foldl_mark_busy_once s e ps : forall (cals : gmap string (list interval)) q,
  NoDup ps -> In q ps ->
  foldl (mark_busy s e) cals ps !! q = Some (default [] (cals !! q) ++ [(s, e)]).
Proof.
  induction ps as [| p ps IH]; intros cals q Hnd Hq; simpl; [destruct Hq |].
  apply NoDup_cons in Hnd as [Hp Hnd]. rewrite list_elem_of_In in Hp.
  destruct (decide (p = q)) as [-> | Hne].
  - rewrite foldl_mark_busy_other by assumption.
    rewrite lookup_mark_busy. destruct (decide (q = q)); [reflexivity | congruence].
  - destruct Hq as [-> | Hq]; [congruence |].
    rewrite IH by assumption.
    rewrite lookup_mark_busy. destruct (decide (p = q)); [congruence | reflexivity].
Qed.

(** The three ways the handler can end. *)
Lemma finalize_and_book_cases parsed slot link now st st' r :
  finalize_and_book parsed slot link now st = (st', r) ->
  let b := {| booking_title := title parsed; booking_slot := slot;
              booking_participants := participants parsed ++ ["You"];
              booking_link := link; booking_created_at := now |} in
  bookings st' = bookings st ++ [b] /\
  ((r = Returned () /\
    sim_calendars st'
    = foldl (mark_busy slot (slot + duration_mins parsed * MINUTE))
        (sim_calendars st) (participants parsed ++ ["You"])) \/
   (r = Raised OverflowError /\ sim_calendars st' = sim_calendars st)).
Proof.
  unfold finalize_and_book, timedelta_minutes, add. intros H.
  destruct (_ && _); simpl in H.
  - destruct (in_range (slot + duration_mins parsed * MINUTE)); simpl in H;
      inversion H; subst; simpl; auto.
  - inversion H; subst; simpl; auto.
Qed.

(** X9: the commit changes the calendar of nobody outside the participants
    of the request and "You", however it ends. *)
Theorem commit_leaves_others_alone parsed slot link now st st' r q :
  finalize_and_book parsed slot link now st = (st', r) ->
  ~ In q (participants parsed ++ ["You"]) ->
  sim_calendars st' !! q = sim_calendars st !! q.
Proof.
  intros H Hq.
  apply finalize_and_book_cases in H as [_ [[_ ->] | [_ ->]]]; [| reflexivity].
  now apply foldl_mark_busy_other.
Qed.

Lemma commit_leaves_others_alone_witness :
  sim_calendars
    (fst (finalize_and_book afternoon_request (at_hm D0 14 0) "link"
            (at_hm D0 8 0) (scenario1_store D0))) !! "Priya"
  = sim_calendars (scenario1_store D0) !! "Priya".
Proof.
  refine (commit_leaves_others_alone afternoon_request (at_hm D0 14 0) "link"
            (at_hm D0 8 0) (scenario1_store D0) _ (Returned ()) "Priya" _ _).
  - unfold finalize_and_book. simpl. reflexivity.
  - vm_compute. intros [H | []]. discriminate H.
Defined.

(** X10: the commit only ever appends.  However it ends, every calendar
    keeps its intervals in place as a prefix of the new calendar, and the
    booking log keeps its entries and gains exactly one at its end, which
    records the title, the slot and the participants followed by "You". *)
Theorem commit_is_append_only parsed slot link now st st' r :
  finalize_and_book parsed slot link now st = (st', r) ->
  (forall q, default [] (sim_calendars st !! q)
               `prefix_of` default [] (sim_calendars st' !! q)) /\
  exists b,
    bookings st' = bookings st ++ [b] /\
    booking_title b = title parsed /\
    booking_slot b = slot /\
    booking_participants b = participants parsed ++ ["You"].
Proof.
  intros H. apply finalize_and_book_cases in H as [Hb Hc]. split.
  - intros q. destruct Hc as [[_ ->] | [_ ->]]; [| reflexivity].
    destruct (foldl_mark_busy_extends slot
                (slot + duration_mins parsed * MINUTE)
                (participants parsed ++ ["You"]) (sim_calendars st) q) as [k Hk].
    eexists. exact Hk.
  - eexists. split; [exact Hb |]. auto.
Qed.

Lemma commit_is_append_only_witness :
  let st' := fst (finalize_and_book afternoon_request (at_hm D0 14 0) "link"
                    (at_hm D0 8 0) (scenario1_store D0)) in
  (forall q, default [] (sim_calendars (scenario1_store D0) !! q)
               `prefix_of` default [] (sim_calendars st' !! q)) /\
  exists b,
    bookings st' = bookings (scenario1_store D0) ++ [b] /\
    booking_title b = title afternoon_request /\
    booking_slot b = at_hm D0 14 0 /\
    booking_participants b = participants afternoon_request ++ ["You"].
Proof.
  refine (commit_is_append_only afternoon_request (at_hm D0 14 0) "link"
            (at_hm D0 8 0) (scenario1_store D0) _ (Returned ()) _).
  unfold finalize_and_book. simpl. reflexivity.
Defined.

(** X11: the commit can only fail with [OverflowError], when the end of the
    slot is not a representable instant, and a failed commit is half done:
    the booking is already in the log while no calendar has changed. *)
Theorem failed_commit_is_logged parsed slot link now st st' e :
  finalize_and_book parsed slot link now st = (st', Raised e) ->
  e = OverflowError /\
  sim_calendars st' = sim_calendars st /\
  length (bookings st') = S (length (bookings st)) /\
  (booking_slot <$> last (bookings st')) = Some slot.
Proof.
  intros H. apply finalize_and_book_cases in H as [Hb [[Hr _] | [Hr Hc]]];
    [discriminate |].
  injection Hr as ->. split; [reflexivity |]. split; [exact Hc |].
  rewrite Hb. split.
  - rewrite length_app. simpl. lia.
  - now rewrite last_snoc.
Qed.

Lemma failed_commit_is_logged_witness :
  OverflowError = OverflowError /\
  sim_calendars
    (fst (finalize_and_book afternoon_request (at_hm (MAX_DAYS - 1) 23 45)
            "link" (at_hm D0 8 0) empty_store))
  = sim_calendars empty_store /\
  length (bookings
    (fst (finalize_and_book afternoon_request (at_hm (MAX_DAYS - 1) 23 45)
            "link" (at_hm D0 8 0) empty_store)))
  = S (length (bookings empty_store)) /\
  (booking_slot <$> last (bookings
    (fst (finalize_and_book afternoon_request (at_hm (MAX_DAYS - 1) 23 45)
            "link" (at_hm D0 8 0) empty_store))))
  = Some (at_hm (MAX_DAYS - 1) 23 45).
Proof.
  refine (failed_commit_is_logged afternoon_request (at_hm (MAX_DAYS - 1) 23 45)
            "link" (at_hm D0 8 0) empty_store _ OverflowError _).
  vm_compute. reflexivity.
Defined.

Lemma foldl_mark_busy_In s e ps (cals : gmap string (list interval)) q :
  In q ps -> In (s, e) (default [] (foldl (mark_busy s e) cals ps !! q)).
Proof.
  intros Hq. destruct (foldl_mark_busy_listed s e ps cals q Hq) as (k & Hk & ->).
  simpl. apply in_or_app. right. destruct k as [| k]; [lia |]. now left.
Qed.

(** X12: once a slot of non-negative duration has been committed, no later
    request, whoever its participants, gets a candidate whose slot meets the
    booked one, not even in a single instant: slots that end exactly where
    the booking starts, or start exactly where it ends, are gone too. *)
Theorem booked_time_is_blocked parsed slot link now st st'
    fuel later slot_step_mins work_start work_end l c :
  0 <= duration_mins parsed ->
  finalize_and_book parsed slot link now st = (st', Returned ()) ->
  compute_candidate_slots fuel st' later slot_step_mins work_start work_end
    = Returned l ->
  In c l ->
  c + duration_mins later * MINUTE < slot \/
  slot + duration_mins parsed * MINUTE < c.
Proof.
  intros Hd Hf Hl Hc.
  apply finalize_and_book_Returned in Hf as (_ & Hcal & _).
  destruct (candidates_shun_interval fuel st' later slot_step_mins work_start
              work_end l c "You" slot (slot + duration_mins parsed * MINUTE)
              Hl Hc) as [H | H]; [| | lia | lia].
  - apply in_or_app. right. now left.
  - rewrite Hcal. apply foldl_mark_busy_In. apply in_or_app. right. now left.
Qed.

Lemma booked_time_is_blocked_witness :
  at_hm D0 15 0 + duration_mins afternoon_request * MINUTE < at_hm D0 14 0 \/
  at_hm D0 14 0 + duration_mins afternoon_request * MINUTE < at_hm D0 15 0.
Proof.
  refine (booked_time_is_blocked afternoon_request (at_hm D0 14 0) "link"
            (at_hm D0 8 0) empty_store _ 19 afternoon_request 30 9 18 _
            (at_hm D0 15 0) _ _ _ _).
  - vm_compute. discriminate.
  - unfold finalize_and_book. simpl. reflexivity.
  - vm_compute. reflexivity.
  - vm_compute. auto 20.
Defined.

(** X13: a commit, however it ends, can only take candidates away: for any
    request, what the slot finder returns afterwards is a subsequence of
    what it returned before. *)
Theorem commit_only_removes_candidates parsed slot link now st st' r
    fuel later slot_step_mins work_start work_end before :
  finalize_and_book parsed slot link now st = (st', r) ->
  compute_candidate_slots fuel st later slot_step_mins work_start work_end
    = Returned before ->
  exists after,
    compute_candidate_slots fuel st' later slot_step_mins work_start work_end
      = Returned after /\
    after `sublist_of` before.
Proof.
  intros Hf. unfold compute_candidate_slots. intros H.
  destruct (timedelta_minutes (duration_mins later)) as [d | |];
    try discriminate.
  destruct (replace_hour (date_from later) work_start) as [cur | |];
    try discriminate.
  simpl in *.
  apply (slots_loop_grows st st' later d slot_step_mins work_start work_end);
    [| exact H].
  apply grows_calendars. intros p.
  apply finalize_and_book_cases in Hf as [_ [[_ ->] | [_ ->]]].
  - destruct (foldl_mark_busy_extends slot
                (slot + duration_mins parsed * MINUTE)
                (participants parsed ++ ["You"]) (sim_calendars st) p) as [k Hk].
    eexists. exact Hk.
  - exists []. now rewrite app_nil_r.
Qed.

Lemma commit_only_removes_candidates_witness :
  exists after,
    compute_candidate_slots 19
      (fst (finalize_and_book afternoon_request (at_hm D0 14 0) "link"
              (at_hm D0 8 0) (scenario1_store D0)))
      (scenario1_request D0) 30 9 18 = Returned after /\
    after `sublist_of`
      [at_hm D0 10 30; at_hm D0 11 0; at_hm D0 11 30; at_hm D0 12 0;
       at_hm D0 12 30; at_hm D0 13 0; at_hm D0 13 30; at_hm D0 14 0;
       at_hm D0 14 30; at_hm D0 15 0; at_hm D0 15 30; at_hm D0 16 0;
       at_hm D0 16 30; at_hm D0 17 0; at_hm D0 17 30].
Proof.
  refine (commit_only_removes_candidates afternoon_request (at_hm D0 14 0)
            "link" (at_hm D0 8 0) (scenario1_store D0) _ (Returned ()) 19
            (scenario1_request D0) 30 9 18 _ _ _).
  - unfold finalize_and_book. simpl. reflexivity.
  - vm_compute. reflexivity.
Defined.

(** X14: when the participants of the request are distinct and "You" is not
    among them, a successful commit adds the interval exactly once, as the
    last entry, to the calendar of each of them and of "You". *)
Theorem commit_appends_once parsed slot link now st st' p :
  NoDup (participants parsed ++ ["You"]) ->
  finalize_and_book parsed slot link now st = (st', Returned ()) ->
  In p (participants parsed ++ ["You"]) ->
  sim_calendars st' !! p
  = Some (default [] (sim_calendars st !! p)
          ++ [((slot, slot + duration_mins parsed * MINUTE) : interval)]).
Proof.
  intros Hnd Hf Hp. apply finalize_and_book_Returned in Hf as (_ & -> & _).
  now apply foldl_mark_busy_once.
Qed.

Lemma commit_appends_once_witness :
  sim_calendars
    (fst (finalize_and_book afternoon_request (at_hm D0 9 0) "link"
            (at_hm D0 8 0) (scenario1_store D0))) !! "You"
  = Some (default [] (sim_calendars (scenario1_store D0) !! "You")
          ++ [((at_hm D0 9 0,
                at_hm D0 9 0 + duration_mins afternoon_request * MINUTE)
               : interval)]).
Proof.
  refine (commit_appends_once afternoon_request (at_hm D0 9 0) "link"
            (at_hm D0 8 0) (scenario1_store D0) _ "You" _ _ _).
  - simpl. apply NoDup_singleton.
  - unfold finalize_and_book. simpl. reflexivity.
  - simpl. now left.
Defined.

(** ** The panels *)

(** X15: after a successful commit of a slot that starts on one of the seven
    days shown, the calendar panel lists the booked interval under the day
    of the slot. *)
Theorem committed_slot_shows_in_agenda parsed slot link now st st' today :
  finalize_and_book parsed slot link now st = (st', Returned ()) ->
  0 <= today -> today + 6 < MAX_DAYS ->
  today <= slot / DAY < today + 7 ->
  exists rows events,
    agenda st' today = Returned rows /\
    In (slot / DAY, events) rows /\
    In (slot, slot + duration_mins parsed * MINUTE) events.
Proof.
  intros Hf H0 Hmax Hday. apply finalize_and_book_Returned in Hf as (_ & Hcal & _).
  unfold agenda.
  destruct (Z.leb_spec 0 today); [| lia].
  destruct (Z.ltb_spec (today + 6) MAX_DAYS); [| lia]. simpl.
  eexists. exists (events_on st' (slot / DAY)). split; [reflexivity |]. split.
  - assert (Hi : slot / DAY = today + 0 \/ slot / DAY = today + 1 \/
                 slot / DAY = today + 2 \/ slot / DAY = today + 3 \/
                 slot / DAY = today + 4 \/ slot / DAY = today + 5 \/
                 slot / DAY = today + 6) by lia.
    destruct Hi as [-> | [-> | [-> | [-> | [-> | [-> | ->]]]]]]; simpl; tauto.
  - unfold events_on. apply list_elem_of_In, list_elem_of_filter. split.
    + reflexivity.
    + apply list_elem_of_In. rewrite Hcal.
      apply foldl_mark_busy_In. apply in_or_app. right. now left.
Qed.

Lemma committed_slot_shows_in_agenda_witness :
  exists rows events,
    agenda (fst (finalize_and_book afternoon_request (at_hm D0 14 0) "link"
                   (at_hm D0 8 0) empty_store)) (D0 - 2) = Returned rows /\
    In (at_hm D0 14 0 / DAY, events) rows /\
    In (at_hm D0 14 0, at_hm D0 14 0 + duration_mins afternoon_request * MINUTE)
       events.
Proof.
  refine (committed_slot_shows_in_agenda afternoon_request (at_hm D0 14 0)
            "link" (at_hm D0 8 0) empty_store _ (D0 - 2) _ _ _ _).
  - unfold finalize_and_book. simpl. reflexivity.
  - vm_compute. discriminate.
  - vm_compute. reflexivity.
  - vm_compute. split; [discriminate | reflexivity].
Defined.

(** ** The parser: characters *)

Section Characters.

Lemma lower_char_idem c : Str.lower_char (Str.lower_char c) = Str.lower_char c.
Proof. by_cases c. Qed.

Lemma lower_idem s : Str.lower (Str.lower s) = Str.lower s.
Proof.
  induction s as [| c s IH]; simpl; [reflexivity |].
  now rewrite lower_char_idem, IH.
Qed.



Lemma space_not_lower c : Str.is_space c = true -> Str.is_lower c = false.
Proof. by_cases c. Qed.




Lemma digit_value c : Scan.is_digit c = true -> 0 <= Z.of_N (Str.code c - 48) <= 9.
Proof. by_cases c; intros _; vm_compute; split; discriminate. Qed.

End Characters.

(** ** The parser: strings *)

Section Names.

Implicit Types (s g : string) (c : ascii) (f : ascii -> bool).



Lemma all_chars_impl f1 f2 s :
  (forall c, f1 c = true -> f2 c = true) ->
  all_chars f1 s = true -> all_chars f2 s = true.
Proof.
  intros Hf. induction s as [| c s IH]; simpl; [reflexivity |].
  intros H. apply andb_prop in H as [Hc Hs]. now rewrite (Hf _ Hc), IH.
Qed.















End Names.




(** X18: the participants, the duration and the title do not depend on the
    case of the letters of the text: lower-casing the text first changes
    none of them. *)
Theorem parsing_ignores_case text :
  parse_request_participants (Str.lower text) = parse_request_participants text /\
  parse_request_duration (Str.lower text) = parse_request_duration text /\
  parse_request_title (Str.lower text) = parse_request_title text.
Proof.
  unfold parse_request_participants, parse_request_duration, parse_request_title.
  now rewrite lower_idem.
Qed.

(** ** The parser: durations *)

Section Durations.

Implicit Types (s ds pre post : string).








End Durations.

Section Amounts.

Implicit Types (s ds ws pre post u : string) (units : list string).










End Amounts.







(** ** The parser: windows *)

Section Windows.

Implicit Types (now f t : datetime).

Lemma day_shift now n : (now + n * DAY) / DAY = now / DAY + n.
Proof. apply Z.div_add. unfold DAY. lia. Qed.

Lemma window_tomorrow_Returned now f t :
  window_tomorrow now = Returned (f, t) ->
  f = at_hm (now / DAY + 1) 9 0 /\ t = at_hm (now / DAY + 2) 9 0 /\
  0 <= now + DAY /\ t < MAX_DATETIME.
Proof.
  unfold window_tomorrow. intros H.
  destruct (add now (1 * DAY)) as [t1 | |] eqn:E1; try discriminate.
  apply add_Returned in E1 as [-> Hr1]. simpl in H.
  change (replace_hour (now + 1 * DAY) 9)
    with (Returned ((now + 1 * DAY) / DAY * DAY + 9 * HOUR) : outcome datetime) in H.
  simpl in H. rewrite day_shift in H.
  destruct (add ((now / DAY + 1) * DAY + 9 * HOUR) (1 * DAY)) as [t2 | |] eqn:E2;
    try discriminate.
  apply add_Returned in E2 as [-> Hr2]. simpl in H. injection H as <- <-.
  repeat split; clock.
Qed.

Lemma window_tomorrow_returns now :
  0 <= now -> now / DAY + 2 < MAX_DAYS ->
  window_tomorrow now
  = Returned (at_hm (now / DAY + 1) 9 0, at_hm (now / DAY + 2) 9 0).
Proof.
  intros H0 Hmax. unfold window_tomorrow.
  pose proof (Z.div_mod now DAY ltac:(unfold DAY; lia)) as Hdm.
  pose proof (Z.mod_pos_bound now DAY ltac:(unfold DAY; lia)) as Hm.
  rewrite add_in_range by clock. simpl.
  change (replace_hour (now + 1 * DAY) 9)
    with (Returned ((now + 1 * DAY) / DAY * DAY + 9 * HOUR) : outcome datetime).
  simpl. rewrite day_shift.
  rewrite add_in_range by clock. simpl. f_equal. f_equal; clock.
Qed.

Lemma weekday_range now : 0 <= weekday now < 7.
Proof. unfold weekday. apply Z.mod_pos_bound. lia. Qed.

Lemma window_next_week_Returned now f t :
  window_next_week now = Returned (f, t) ->
  let monday := now / DAY + (7 - weekday now) in
  f = at_hm monday 9 0 /\ t = at_hm (monday + 7) 9 0 /\ t < MAX_DATETIME.
Proof.
  unfold window_next_week. intros H.
  destruct (add now ((7 - weekday now) * DAY)) as [t1 | |] eqn:E1;
    try discriminate.
  apply add_Returned in E1 as [-> Hr1]. simpl in H.
  change (replace_hour (now + (7 - weekday now) * DAY) 9)
    with (Returned ((now + (7 - weekday now) * DAY) / DAY * DAY + 9 * HOUR)
          : outcome datetime) in H.
  simpl in H. rewrite day_shift in H.
  destruct (add ((now / DAY + (7 - weekday now)) * DAY + 9 * HOUR) (7 * DAY))
    as [t2 | |] eqn:E2; try discriminate.
  apply add_Returned in E2 as [-> Hr2]. simpl in H. injection H as <- <-.
  repeat split; clock.
Qed.

Lemma window_next_week_returns now :
  0 <= now -> now / DAY + 14 < MAX_DAYS ->
  let monday := now / DAY + (7 - weekday now) in
  window_next_week now = Returned (at_hm monday 9 0, at_hm (monday + 7) 9 0).
Proof.
  intros H0 Hmax monday. unfold window_next_week.
  pose proof (Z.div_mod now DAY ltac:(unfold DAY; lia)) as Hdm.
  pose proof (Z.mod_pos_bound now DAY ltac:(unfold DAY; lia)) as Hm.
  pose proof (weekday_range now) as Hw.
  assert (0 <= now / DAY) by (apply Z.div_pos; unfold DAY; lia).
  rewrite add_in_range by (unfold MAX_DATETIME, MAX_DAYS, DAY in *; nia). simpl.
  change (replace_hour (now + (7 - weekday now) * DAY) 9)
    with (Returned ((now + (7 - weekday now) * DAY) / DAY * DAY + 9 * HOUR)
          : outcome datetime).
  simpl. rewrite day_shift. fold monday.
  assert (Hmon : now / DAY < monday <= now / DAY + 7) by (unfold monday; lia).
  rewrite add_in_range by clock. simpl. f_equal. f_equal; clock.
Qed.

Lemma next_monday_is_monday now :
  (now / DAY + (7 - weekday now)) mod 7 = 0.
Proof.
  unfold weekday.
  pose proof (Z.div_mod (now / DAY) 7 ltac:(lia)) as Hdm.
  replace (now / DAY + (7 - (now / DAY) mod 7))
    with (0 + (now / DAY / 7 + 1) * 7) by lia.
  now rewrite Z_mod_plus_full.
Qed.

Lemma window_week_from_now_Returned now f t :
  window_week_from_now now = Returned (f, t) -> f = now /\ t = now + 7 * DAY.
Proof.
  unfold window_week_from_now. intros H.
  destruct (add now (7 * DAY)) as [t1 | |] eqn:E1; try discriminate.
  apply add_Returned in E1 as [-> _]. simpl in H. now injection H as <- <-.
Qed.

Lemma window_fuzzy_Returned fuzzy now f t :
  window_fuzzy fuzzy now = Returned (f, t) ->
  t = f + DAY \/ t = f + 7 * DAY.
Proof.
  unfold window_fuzzy. intros H.
  assert (Hweek : window_week_from_now now = Returned (f, t) ->
                  t = f + DAY \/ t = f + 7 * DAY).
  { intros E. apply window_week_from_now_Returned in E as [-> ->]. now right. }
  destruct fuzzy as [parsed |]; [| auto].
  change (replace_hour parsed 9)
    with (Returned (parsed / DAY * DAY + 9 * HOUR) : outcome datetime) in H.
  simpl in H.
  destruct (add (parsed / DAY * DAY + 9 * HOUR) (1 * DAY)) as [t2 | |] eqn:E2;
    simpl in H; auto.
  apply add_Returned in E2 as [-> _]. injection H as <- <-. left. clock.
Qed.

End Windows.

(** X22: a text containing "tomorrow" (in any case) gives the window from
    09:00 of the day after [now] to 09:00 of the day after that, whatever
    else the text says, provided these days exist for Python; the window
    starts after [now]. *)
Theorem window_for_tomorrow text now fuzzy :
  Scan.contains "tomorrow" (Str.lower text) = true ->
  0 <= now -> now / DAY + 2 < MAX_DAYS ->
  parse_request_window text now fuzzy
  = Returned (at_hm (now / DAY + 1) 9 0, at_hm (now / DAY + 2) 9 0) /\
  now < at_hm (now / DAY + 1) 9 0.
Proof.
  intros Hc H0 Hmax. unfold parse_request_window. rewrite Hc. split.
  - now apply window_tomorrow_returns.
  - pose proof (Z.div_mod now DAY ltac:(unfold DAY; lia)) as Hdm.
    pose proof (Z.mod_pos_bound now DAY ltac:(unfold DAY; lia)) as Hm.
    clock.
Qed.

Lemma window_for_tomorrow_witness :
  parse_request_window "Sync with Priya tomorrow" (at_hm D0 15 20) None
  = Returned (at_hm (at_hm D0 15 20 / DAY + 1) 9 0,
              at_hm (at_hm D0 15 20 / DAY + 2) 9 0) /\
  at_hm D0 15 20 < at_hm (at_hm D0 15 20 / DAY + 1) 9 0.
Proof.
  apply (window_for_tomorrow "Sync with Priya tomorrow" (at_hm D0 15 20) None).
  - vm_compute. reflexivity.
  - vm_compute. discriminate.
  - vm_compute. reflexivity.
Defined.

(** X23: a text containing "next week" and not "tomorrow" gives the window
    from 09:00 of the first Monday after the day of [now] to 09:00 of the
    Monday a week later, provided these days exist for Python; asked on a
    Monday, it is the Monday seven days ahead. *)
Theorem window_for_next_week text now fuzzy :
  Scan.contains "tomorrow" (Str.lower text) = false ->
  Scan.contains "next week" (Str.lower text) = true ->
  0 <= now -> now / DAY + 14 < MAX_DAYS ->
  exists monday,
    parse_request_window text now fuzzy
    = Returned (at_hm monday 9 0, at_hm (monday + 7) 9 0) /\
    weekday (at_hm monday 9 0) = 0 /\
    now / DAY < monday <= now / DAY + 7 /\
    (weekday now = 0 -> monday = now / DAY + 7).
Proof.
  intros Ht Hn H0 Hmax. exists (now / DAY + (7 - weekday now)).
  unfold parse_request_window. rewrite Ht, Hn.
  pose proof (weekday_range now) as Hw.
  split; [now apply window_next_week_returns |]. split; [| split; lia].
  unfold weekday at 1. rewrite day_at_hm by lia. apply next_monday_is_monday.
Qed.

Lemma window_for_next_week_witness :
  exists monday,
    parse_request_window "Plan a review next week" (at_hm (D0 + 2) 15 20) None
    = Returned (at_hm monday 9 0, at_hm (monday + 7) 9 0) /\
    weekday (at_hm monday 9 0) = 0 /\
    at_hm (D0 + 2) 15 20 / DAY < monday <= at_hm (D0 + 2) 15 20 / DAY + 7 /\
    (weekday (at_hm (D0 + 2) 15 20) = 0 -> monday = at_hm (D0 + 2) 15 20 / DAY + 7).
Proof.
  apply (window_for_next_week "Plan a review next week" (at_hm (D0 + 2) 15 20) None).
  - vm_compute. reflexivity.
  - vm_compute. reflexivity.
  - vm_compute. discriminate.
  - vm_compute. reflexivity.
Defined.

(** X24: whatever the text, the clock and the answer of the date parser, a
    window that is returned is exactly one day or exactly seven days long;
    in particular it starts before it ends. *)
Theorem window_is_a_day_or_a_week text now fuzzy f t :
  parse_request_window text now fuzzy = Returned (f, t) ->
  (t = f + DAY \/ t = f + 7 * DAY) /\ f < t.
Proof.
  intros H.
  assert (Hlen : t = f + DAY \/ t = f + 7 * DAY); [| split; [exact Hlen | clock]].
  unfold parse_request_window in H.
  destruct (Scan.contains "tomorrow" (Str.lower text)).
  - apply window_tomorrow_Returned in H as (-> & -> & _). left. clock.
  - destruct (Scan.contains "next week" (Str.lower text)).
    + apply window_next_week_Returned in H as (-> & -> & _). right. clock.
    + now apply window_fuzzy_Returned in H.
Qed.

Lemma window_is_a_day_or_a_week_witness :
  (at_hm (D0 + 1) 9 0 = at_hm D0 9 0 + DAY \/
   at_hm (D0 + 1) 9 0 = at_hm D0 9 0 + 7 * DAY) /\
  at_hm D0 9 0 < at_hm (D0 + 1) 9 0.
Proof.
  apply (window_is_a_day_or_a_week "Lunch on the 6th" (at_hm (D0 - 3) 15 20)
           (Some (at_hm D0 0 0))).
  vm_compute. reflexivity.
Defined.

(** ** From the text to the candidates *)

Lemma parse_request_Returned text now fuzzy parsed :
  parse_request text now fuzzy = Returned parsed ->
  parse_request_window text now fuzzy
    = Returned (date_from parsed, date_to parsed) /\
  participants parsed = parse_request_participants text /\
  duration_mins parsed = parse_request_duration text /\
  title parsed = parse_request_title text.
Proof.
  unfold parse_request. intros H.
  destruct (parse_request_window text now fuzzy) as [[f t] | |];
    try discriminate.
  simpl in H. injection H as <-. simpl. auto.
Qed.

Lemma candidates_from_cursor fuel st parsed slot_step_mins work_start work_end l c :
  0 < slot_step_mins ->
  compute_candidate_slots fuel st parsed slot_step_mins work_start work_end
    = Returned l ->
  In c l ->
  date_from parsed / DAY * DAY + work_start * HOUR <= c.
Proof.
  intros Hs Hl Hc. apply compute_candidate_slots_inv in Hl as [_ Hl].
  destruct (slots_loop_sorted _ _ _ _ _ _ _ _ _ Hs Hl) as [Hlow _].
  rewrite Forall_forall in Hlow. apply Hlow. now apply list_elem_of_In.
Qed.

(** X25: for a text that says "tomorrow" or "next week", every candidate
    found with the default step and working hours for the parsed request
    lies inside the parsed window and after the instant the text was
    parsed: no slot in the past, none before the window opens. *)
Theorem parsed_request_candidates_in_window text now fuzzy parsed fuel st l c :
  Scan.contains "tomorrow" (Str.lower text) = true \/
  Scan.contains "next week" (Str.lower text) = true ->
  parse_request text now fuzzy = Returned parsed ->
  compute_candidate_slots_default fuel st parsed = Returned l ->
  In c l ->
  now < date_from parsed /\
  date_from parsed <= c /\
  c + duration_mins parsed * MINUTE <= date_to parsed.
Proof.
  intros Hkw Hp Hl Hc.
  apply parse_request_Returned in Hp as (Hw & _).
  pose proof (Z.div_mod now DAY ltac:(unfold DAY; lia)) as Hdm.
  pose proof (Z.mod_pos_bound now DAY ltac:(unfold DAY; lia)) as Hm.
  pose proof (weekday_range now) as Hwd.
  assert (Hfrom : exists d, now / DAY < d /\ date_from parsed = at_hm d 9 0).
  { unfold parse_request_window in Hw.
    destruct (Scan.contains "tomorrow" (Str.lower text)).
    - apply window_tomorrow_Returned in Hw as (-> & _).
      exists (now / DAY + 1). split; [lia | reflexivity].
    - destruct (Scan.contains "next week" (Str.lower text));
        [| destruct Hkw; discriminate].
      apply window_next_week_Returned in Hw as (-> & _).
      exists (now / DAY + (7 - weekday now)). split; [lia | reflexivity]. }
  destruct Hfrom as (d & Hd & Hf).
  unfold compute_candidate_slots_default in Hl.
  pose proof (candidates_from_cursor fuel st parsed 30 9 18 l c ltac:(lia) Hl Hc)
    as Hcur.
  rewrite Hf, day_at_hm in Hcur by lia.
  apply compute_candidate_slots_inv in Hl as [_ Hl].
  destruct (slots_loop_sound _ _ _ _ _ _ _ _ _ Hl c Hc) as (Hend & _).
  rewrite Hf. repeat split; [clock | clock | exact Hend].
Qed.

Lemma parsed_request_candidates_in_window_witness :
  at_hm D0 15 20 < at_hm (D0 + 1) 9 0 /\
  at_hm (D0 + 1) 9 0 <= at_hm (D0 + 1) 9 30 /\
  at_hm (D0 + 1) 9 30 + 45 * MINUTE <= at_hm (D0 + 2) 9 0.
Proof.
  refine (parsed_request_candidates_in_window
            "Schedule a 45 min interview with Priya and Alex tomorrow"
            (at_hm D0 15 20) None
            {| participants := ["Priya"; "Alex Tomorrow"]; duration_mins := 45;
               date_from := at_hm (D0 + 1) 9 0; date_to := at_hm (D0 + 2) 9 0;
               title := "Meeting" |}
            49 empty_store _ (at_hm (D0 + 1) 9 30) _ _ _ _).
  - left. vm_compute. reflexivity.
  - vm_compute. reflexivity.
  - vm_compute. reflexivity.
  - vm_compute. auto.
Defined.
